(** * Context retrieval and ranking engine of the strategy advisor

    A shallow embedding of [src/strategy-advisor/advisor.js]: keyword
    extraction, query analysis, the Town Hall filter, hybrid retrieval with
    the intent boost, Maximum Marginal Relevance, the prompt builder, the
    formatting of the response and [processQuery]; of the two routes of
    [src/strategy-advisor/api.js]; and of the document lookup of
    [src/strategy-simulator/api.js].

    Conventions of the embedding.
    - A JavaScript string is a [string] of code units below 256 (Latin-1);
      [toLowerCase], [\s], [\w] and [\d] are written out for that range.
    - A JavaScript number is an exact rational ([Q]) or integer ([Z]).
      Where the code can produce NaN, by reading past the end of a vector
      or a similarity that is not there, the number is an [option Q] and
      [None] is NaN. The rounding of floating point is not modelled;
      [Math.sqrt] and the one product whose rounding shows in a result,
      [similarity * 100], are parameters of the development.
    - An absent property ([undefined]) is [None].
    - The embedding service is a parameter, [generateQueryEmbedding].
    - The corpus is a store of objects addressed by their position; an
      array that [filter] made from it holds references into that store,
      a spread makes a fresh object.

    The first part holds the embedding, the second part the properties
    of the specification, C1 to C10, the third part further properties of
    the code, X1 to X24. *)

From Stdlib Require Import Bool Btauto Arith ZArith QArith Qround.
From Stdlib Require Import Lia Lqa List.
From Stdlib Require Import Ascii String DecimalString Permutation Sorted.
Import ListNotations.

Open Scope string_scope.
Open Scope list_scope.

(* ================================================================== *)
(** ** Strings *)

Definition code (c : ascii) : nat := nat_of_ascii c.

Definition between (lo hi n : nat) : bool := (lo <=? n)%nat && (n <=? hi)%nat.

(** [\d] *)
Definition isDigit (c : ascii) : bool := between 48 57 (code c).

(** [\w]: letters, digits and the underscore. *)
Definition isWordChar (c : ascii) : bool :=
  between 48 57 (code c) || between 65 90 (code c)
  || between 97 122 (code c) || (code c =? 95)%nat.

(** [\s] below 256: tab, line feed, vertical tab, form feed, carriage
    return, space and the no-break space. *)
Definition isSpace (c : ascii) : bool :=
  between 9 13 (code c) || (code c =? 32)%nat || (code c =? 160)%nat.

Definition lowerChar (c : ascii) : ascii :=
  let n := code c in
  if between 65 90 n || (between 192 222 n && negb (n =? 215)%nat)
  then ascii_of_nat (n + 32) else c.

(** [s.toLowerCase()] *)
Fixpoint toLowerCase (s : string) : string :=
  match s with
  | EmptyString => EmptyString
  | String c s' => String (lowerChar c) (toLowerCase s')
  end.

(** [s.includes(t)] on strings: [t] occurs in [s] as a substring. *)
Fixpoint includes (s t : string) : bool :=
  String.prefix t s ||
  match s with
  | EmptyString => false
  | String _ s' => includes s' t
  end.

(** [s.indexOf(t)]: the position of the first occurrence, [None] for
    [-1]. *)
Fixpoint indexOf (s t : string) : option nat :=
  if String.prefix t s then Some 0%nat
  else
    match s with
    | EmptyString => None
    | String _ s' =>
        match indexOf s' t with
        | Some i => Some (S i)
        | None => None
        end
    end.

(** [arr.includes(x)] on an array of strings. *)
Definition arrayIncludes (arr : list string) (x : string) : bool :=
  existsb (String.eqb x) arr.

(** [s.replace(/[^\w\s]/g, '')] *)
Fixpoint removePunctuation (s : string) : string :=
  match s with
  | EmptyString => EmptyString
  | String c s' =>
      if isWordChar c || isSpace c then String c (removePunctuation s')
      else removePunctuation s'
  end.

(** [s.split(/\s+/)]: the pieces between maximal runs of white space; a
    leading or trailing run leaves an empty piece, as in JavaScript.
    [cur] is the piece being read, [inRun] tells that the previous
    character was white space. *)
Fixpoint splitLoop (s cur : string) (inRun : bool) : list string :=
  match s with
  | EmptyString => [cur]
  | String c s' =>
      if isSpace c then
        if inRun then splitLoop s' cur true
        else cur :: splitLoop s' EmptyString true
      else splitLoop s' (cur ++ String c EmptyString) false
  end.

Definition splitWhitespace (s : string) : list string :=
  splitLoop s EmptyString false.

Fixpoint skipSpaces (s : string) : string :=
  match s with
  | String c s' => if isSpace c then skipSpaces s' else s
  | EmptyString => EmptyString
  end.

Fixpoint takeDigits (s : string) : string :=
  match s with
  | String c s' => if isDigit c then String c (takeDigits s') else EmptyString
  | EmptyString => EmptyString
  end.

(** Match the literal [p] (lower case) at the start of [s], ignoring case;
    the rest of [s] is returned. *)
Fixpoint literalCI (p s : string) : option string :=
  match p with
  | EmptyString => Some s
  | String a p' =>
      match s with
      | String c s' =>
          if Ascii.eqb (lowerChar c) a then literalCI p' s' else None
      | EmptyString => None
      end
  end.

(** [\s*(\d+)]: the captured digits. The two classes are disjoint, so the
    greedy run of white space never has to give a character back. *)
Definition spacesThenDigits (s : string) : option string :=
  match takeDigits (skipSpaces s) with
  | EmptyString => None
  | d => Some d
  end.

(** The regular expression [/th\s*(\d+)|town\s*hall\s*(\d+)/i] tried at the
    start of [s]; the result is [m[1] || m[2]]. *)
Definition thPatternAt (s : string) : option string :=
  match literalCI "th" s with
  | Some r =>
      match spacesThenDigits r with
      | Some d => Some d
      | None => None
      end
  | None => None
  end.

Definition townHallPatternAt (s : string) : option string :=
  match literalCI "town" s with
  | Some r =>
      match literalCI "hall" (skipSpaces r) with
      | Some r' => spacesThenDigits r'
      | None => None
      end
  | None => None
  end.

Definition patternAt (s : string) : option string :=
  match thPatternAt s with
  | Some d => Some d
  | None => townHallPatternAt s
  end.

(** [s.match(/th\s*(\d+)|town\s*hall\s*(\d+)/i)]: the leftmost match. *)
Fixpoint thMatch (s : string) : option string :=
  match patternAt s with
  | Some d => Some d
  | None =>
      match s with
      | EmptyString => None
      | String _ s' => thMatch s'
      end
  end.

(** [parseInt(d, 10)] on a string of decimal digits. *)
Fixpoint parseDigits (s : string) (acc : Z) : Z :=
  match s with
  | EmptyString => acc
  | String c s' => parseDigits s' (10 * acc + Z.of_nat (code c - 48))%Z
  end.

Definition parseInt (d : string) : Z := parseDigits d 0%Z.

(** The decimal text of an integer, as a template literal prints it. *)
Definition numberToString (n : Z) : string :=
  NilZero.string_of_int (Z.to_int n).

(** [s.trim()] *)
Fixpoint rev_string (s acc : string) : string :=
  match s with
  | EmptyString => acc
  | String c s' => rev_string s' (String c acc)
  end.

Definition trim (s : string) : string :=
  rev_string (skipSpaces (rev_string (skipSpaces s) EmptyString)) EmptyString.

(** [parts.join(sep)] *)
Fixpoint join (sep : string) (parts : list string) : string :=
  match parts with
  | [] => EmptyString
  | [p] => p
  | p :: rest => p ++ sep ++ join sep rest
  end.

(* ================================================================== *)
(** ** Keyword extraction *)

Definition stopwords : list string :=
  [ "a"; "about"; "an"; "and"; "are"; "as"; "at"; "be"; "by"; "for"; "from";
    "how"; "i"; "in"; "is"; "it"; "of"; "on"; "or"; "that"; "the"; "this";
    "to"; "was"; "what"; "when"; "where"; "who"; "will"; "with"; "the";
    "can"; "you"; "me"; "my"; "should"; "would"; "could"; "need";
    "regarding"; "regarding"; "tell" ].

Definition cocTerms : list string := [ "th"; "war"; "coc" ].

Definition cleanQuery (query : string) : string :=
  removePunctuation (toLowerCase query).

(** One turn of [for (const term of cocTerms)]. *)
Definition addTerm (cleanedQuery : string) (keywords : list string)
    (term : string) : list string :=
  if includes cleanedQuery term && negb (arrayIncludes keywords term)
  then keywords ++ [term] else keywords.

Definition extractKeywords (query : string) : list string :=
  let cleanedQuery := cleanQuery query in
  let words := splitWhitespace cleanedQuery in
  let keywords :=
    filter (fun word => (2 <? String.length word)%nat
                        && negb (arrayIncludes stopwords word)) words in
  let keywords := fold_left (addTerm cleanedQuery) cocTerms keywords in
  match thMatch query with
  | Some thLevel =>
      if negb (arrayIncludes keywords thLevel)
      then keywords ++ [("th" ++ thLevel)%string;
                        ("townhall" ++ thLevel)%string]
      else keywords
  | None => keywords
  end.

(* ================================================================== *)
(** ** Query analysis *)

Inductive Intent : Type :=
  | general
  | upgrade_priority
  | attack_strategy
  | base_design
  | resource_management.

Definition Intent_eqb (a b : Intent) : bool :=
  match a, b with
  | general, general
  | upgrade_priority, upgrade_priority
  | attack_strategy, attack_strategy
  | base_design, base_design
  | resource_management, resource_management => true
  | _, _ => false
  end.

(** The [params] object. A key that was never assigned is [None]. *)
Record Params : Type := mkParams {
  townHallLevel : option Z;
  targetTH : option Z;
  itemType : option string;
  focus : option string;
  attackType : option string;
  focusTroop : option string;
  purpose : option string;
  baseType : option string;
  resourceType : option string;
  goal : option string
}.

Record QueryAnalysis : Type := mkQueryAnalysis {
  intent : Intent;
  params : Params
}.

Definition emptyParams : Params :=
  mkParams None None None None None None None None None None.

(** [arr.some(w => lowerQuery.includes(w))], for the chains of [||]. *)
Definition anyOf (lowerQuery : string) (ws : list string) : bool :=
  existsb (includes lowerQuery) ws.

(** The first [if] of each group of [if ... else if ...]: the value of the
    first rule whose test holds. *)
Fixpoint firstRule (rules : list (bool * string)) : option string :=
  match rules with
  | [] => None
  | (test, v) :: rest => if test then Some v else firstRule rest
  end.

Definition troops : list string :=
  [ "barbarian"; "archer"; "giant"; "goblin"; "wall breaker";
    "balloon"; "wizard"; "healer"; "dragon"; "pekka"; "baby dragon";
    "miner"; "electro dragon"; "yeti"; "dragon rider"; "hog rider";
    "valkyrie"; "golem"; "witch"; "lava hound"; "bowler"; "ice golem";
    "headhunter" ].

(** [for (const troop of troops) { if (lowerQuery.includes(troop)) {
    params.focusTroop = troop; break; } }] *)
Fixpoint scanTroops (lowerQuery : string) (ts : list string) : option string :=
  match ts with
  | [] => None
  | troop :: rest =>
      if includes lowerQuery troop then Some troop
      else scanTroops lowerQuery rest
  end.

Definition isUpgradeQuery (lowerQuery : string) : bool :=
  includes lowerQuery "upgrade"
  || includes lowerQuery "priority"
  || includes lowerQuery "what should i upgrade"
  || includes lowerQuery "upgrade first"
  || includes lowerQuery "upgrade next"
  || includes lowerQuery "what to upgrade"
  || (includes lowerQuery "max" && includes lowerQuery "first")
  || (includes lowerQuery "focus" && includes lowerQuery "upgrade").

Definition isAttackQuery (lowerQuery : string) : bool :=
  includes lowerQuery "attack"
  || includes lowerQuery "strategy"
  || includes lowerQuery "army"
  || includes lowerQuery "raid"
  || includes lowerQuery "war attack"
  || includes lowerQuery "attack plan"
  || includes lowerQuery "composition"
  || includes lowerQuery "how to beat"
  || includes lowerQuery "how to attack"
  || includes lowerQuery "best troops for"
  || includes lowerQuery "troop comp".

Definition isBaseQuery (lowerQuery : string) : bool :=
  includes lowerQuery "base"
  || includes lowerQuery "layout"
  || includes lowerQuery "design"
  || includes lowerQuery "village layout"
  || includes lowerQuery "base plan"
  || includes lowerQuery "defense layout"
  || includes lowerQuery "base design"
  || includes lowerQuery "village setup"
  || includes lowerQuery "how to build"
  || (includes lowerQuery "arrange" && includes lowerQuery "defense")
  || (includes lowerQuery "place" && includes lowerQuery "building").

Definition isResourceQuery (lowerQuery : string) : bool :=
  includes lowerQuery "resource"
  || includes lowerQuery "gold"
  || includes lowerQuery "elixir"
  || includes lowerQuery "dark elixir"
  || includes lowerQuery "save"
  || includes lowerQuery "spend"
  || includes lowerQuery "economy"
  || includes lowerQuery "farm"
  || includes lowerQuery "loot"
  || includes lowerQuery "best way to get"
  || includes lowerQuery "how to get more".

(** The secondary extraction passes, one per intent. *)
Definition itemTypeOf (lowerQuery : string) : option string :=
  firstRule
    [ (anyOf lowerQuery ["troop"; "army"], "troop");
      (includes lowerQuery "spell", "spell");
      (includes lowerQuery "hero", "hero");
      (anyOf lowerQuery
         ["defense"; "building"; "structure"; "tower"; "cannon"; "mortar"],
       "defense") ].

Definition focusOf (lowerQuery : string) : option string :=
  firstRule
    [ (anyOf lowerQuery ["offense"; "attack"; "troop"; "spell"; "army"],
       "offense");
      (anyOf lowerQuery ["defense"; "defend"; "wall"; "protect"],
       "defense") ].

Definition attackTypeOf (lowerQuery : string) : option string :=
  firstRule
    [ (anyOf lowerQuery ["air"; "dragon"; "balloon"; "hound"], "air");
      (anyOf lowerQuery
         ["ground"; "hog"; "giant"; "golem"; "pekka"; "barbarian"; "archer"],
       "ground") ].

Definition purposeOf (lowerQuery : string) : option string :=
  firstRule
    [ (anyOf lowerQuery ["farm"; "loot"], "farming");
      (anyOf lowerQuery ["war"; "clan war"], "war");
      (anyOf lowerQuery ["trophy"; "push"], "trophy") ].

Definition baseTypeOf (lowerQuery : string) : option string :=
  firstRule
    [ (anyOf lowerQuery ["farm"; "loot"], "farming");
      (anyOf lowerQuery ["war"; "clan war"], "war");
      (anyOf lowerQuery ["trophy"; "push"], "trophy");
      (includes lowerQuery "hybrid", "hybrid") ].

Definition resourceTypeOf (lowerQuery : string) : option string :=
  firstRule
    [ (includes lowerQuery "gold", "gold");
      (includes lowerQuery "elixir" && includes lowerQuery "dark",
       "dark_elixir");
      (includes lowerQuery "elixir", "elixir");
      (includes lowerQuery "gem", "gems") ].

Definition goalOf (lowerQuery : string) : option string :=
  firstRule
    [ (anyOf lowerQuery ["save"; "store"], "saving");
      (anyOf lowerQuery ["farm"; "collect"; "get"], "farming");
      (anyOf lowerQuery ["spend"; "use"], "spending") ].

Definition analyzeQuery (query : string) : QueryAnalysis :=
  let lowerQuery := toLowerCase query in
  let th :=
    match thMatch lowerQuery with
    | Some d => Some (parseInt d)
    | None => None
    end in
  if isUpgradeQuery lowerQuery then
    mkQueryAnalysis upgrade_priority
      (mkParams th None (itemTypeOf lowerQuery) (focusOf lowerQuery)
         None None None None None None)
  else if isAttackQuery lowerQuery then
    mkQueryAnalysis attack_strategy
      (mkParams th None None None (attackTypeOf lowerQuery)
         (scanTroops lowerQuery troops) (purposeOf lowerQuery)
         None None None)
  else if isBaseQuery lowerQuery then
    mkQueryAnalysis base_design
      (mkParams th None None None None None None
         (baseTypeOf lowerQuery) None None)
  else if isResourceQuery lowerQuery then
    mkQueryAnalysis resource_management
      (mkParams th None None None None None None None
         (resourceTypeOf lowerQuery) (goalOf lowerQuery))
  else
    mkQueryAnalysis general
      (mkParams th None None None None None None None None None).

(* ================================================================== *)
(** ** Documents *)

Record Metadata : Type := mkMetadata {
  meta_id : string;
  meta_name : option string;
  meta_type : option string;
  meta_category : string;
  meta_url : option string
}.

(** A record of the corpus, or a copy of one made by a spread
    [{...doc, similarity: s}]; [similarity] and [keywordScore] are the
    fields a retrieval adds. *)
Record Doc : Type := mkDoc {
  content : string;
  metadata : Metadata;
  embedding : list Q;
  similarity : option Q;
  keywordScore : option Z
}.

(** [{...doc, similarity: s}] *)
Definition withSimilarity (doc : Doc) (s : Q) : Doc :=
  mkDoc (content doc) (metadata doc) (embedding doc) (Some s)
    (keywordScore doc).

(** [{...doc, keywordScore: k}] *)
Definition withKeywordScore (doc : Doc) (k : Z) : Doc :=
  mkDoc (content doc) (metadata doc) (embedding doc) (similarity doc)
    (Some k).

(** The deduplication key, [(metadata.id, metadata.category)]. *)
Definition key (doc : Doc) : string * string :=
  (meta_id (metadata doc), meta_category (metadata doc)).

(** [doc.metadata.id === m.metadata.id &&
     doc.metadata.category === m.metadata.category] *)
Definition sameKey (doc m : Doc) : bool :=
  String.eqb (meta_id (metadata doc)) (meta_id (metadata m))
  && String.eqb (meta_category (metadata doc)) (meta_category (metadata m)).

(** A string property used as a condition: defined and not empty. *)
Definition truthy (o : option string) : bool :=
  match o with
  | Some s => negb (String.eqb s EmptyString)
  | None => false
  end.

(** [a || b] on optional numbers: [0] and [undefined] are falsy. *)
Definition orNumber (a b : option Z) : option Z :=
  match a with
  | Some n => if (n =? 0)%Z then b else a
  | None => b
  end.

(* ================================================================== *)
(** ** Arrays *)

Section Arrays.
Context {A : Type}.

(** [arr.sort(cmp)]: the sort is stable, [x] stays before [y] when
    [cmp x y <= 0]. *)
Fixpoint insertSorted (cmp : A -> A -> Q) (x : A) (l : list A) : list A :=
  match l with
  | [] => [x]
  | y :: l' =>
      if Qle_bool (cmp x y) 0 then x :: l
      else y :: insertSorted cmp x l'
  end.

Definition stableSort (cmp : A -> A -> Q) (l : list A) : list A :=
  fold_right (insertSorted cmp) [] l.

(** [arr.splice(i, 1)] *)
Definition removeAt (i : nat) (l : list A) : list A :=
  firstn i l ++ skipn (S i) l.

(** [if (!acc.some(d => sameKey(d, x))) acc.push(x)], where the
    elements are read as documents through [doc]. *)
Definition pushIfNew (doc : A -> Doc) (acc : list A) (x : A) : list A :=
  if existsb (fun d => sameKey (doc d) (doc x)) acc then acc
  else acc ++ [x].
End Arrays.

(** [(a, b) => b.similarity - a.similarity]; with a missing similarity the
    difference is NaN, which a sort takes as [+0]. *)
Definition bySimilarity (a b : Doc) : Q :=
  match similarity a, similarity b with
  | Some x, Some y => y - x
  | _, _ => 0
  end.

(** [(a, b) => b.keywordScore - a.keywordScore] *)
Definition byKeywordScore (a b : Doc) : Q :=
  match keywordScore a, keywordScore b with
  | Some x, Some y => inject_Z (y - x)
  | _, _ => 0
  end.

(* ================================================================== *)
(** ** Town Hall filter *)

Definition mentionsLevel (thLevel : Z) (d : Doc) : bool :=
  let content := toLowerCase (content d) in
  includes content ("th" ++ numberToString thLevel)
  || includes content ("town hall " ++ numberToString thLevel)
  || includes content ("townhall " ++ numberToString thLevel)
  || includes content ("th " ++ numberToString thLevel).

Definition mentionsNearbyLevel (thLevel : Z) (d : Doc) : bool :=
  let content := toLowerCase (content d) in
  includes content ("th" ++ numberToString (thLevel - 1))
  || includes content ("th" ++ numberToString (thLevel + 1))
  || includes content ("town hall " ++ numberToString (thLevel - 1))
  || includes content ("town hall " ++ numberToString (thLevel + 1)).

Section Filter.
(** The array holds references; [doc] reads the object behind one. *)
Context {A : Type} (doc : A -> Doc).

Definition exactMatches (thLevel : Z) (embeddings : list A) : list A :=
  filter (fun r => mentionsLevel thLevel (doc r)) embeddings.

Definition nearbyMatches (thLevel : Z) (embeddings : list A) : list A :=
  filter (fun r => mentionsNearbyLevel thLevel (doc r)) embeddings.

Definition combinedMatches (thLevel : Z) (embeddings : list A) : list A :=
  fold_left (pushIfNew doc) (nearbyMatches thLevel embeddings)
    (exactMatches thLevel embeddings).

Definition filterByTownHallLevel (thLevel : option Z)
    (embeddings : list A) : list A :=
  match thLevel with
  | None => embeddings
  | Some thLevel =>
      if (thLevel =? 0)%Z then embeddings
      else if (5 <=? List.length (exactMatches thLevel embeddings))%nat
      then exactMatches thLevel embeddings
      else if (5 <=? List.length (combinedMatches thLevel embeddings))%nat
      then combinedMatches thLevel embeddings
      else embeddings
  end.
End Filter.

(* ================================================================== *)
(** ** Keyword scoring *)

Definition scoreKeyword (doc : Doc) (score : Z) (keyword : string) : Z :=
  let content := toLowerCase (content doc) in
  let score :=
    if includes content (toLowerCase keyword) then (score + 1)%Z
    else score in
  let score :=
    match meta_name (metadata doc) with
    | Some name =>
        if negb (String.eqb name EmptyString)
           && includes (toLowerCase name) (toLowerCase keyword)
        then (score + 2)%Z else score
    | None => score
    end in
  match meta_type (metadata doc) with
  | Some type =>
      if negb (String.eqb type EmptyString)
         && String.eqb (toLowerCase type) (toLowerCase keyword)
      then (score + 3)%Z else score
  | None => score
  end.

Definition findKeywordMatches (keywords : list string)
    (embeddings : list Doc) (topK : nat) : list Doc :=
  let keywordScores :=
    map (fun doc =>
           withKeywordScore doc (fold_left (scoreKeyword doc) keywords 0%Z))
        embeddings in
  let matches :=
    filter (fun doc =>
              match keywordScore doc with
              | Some k => (0 <? k)%Z
              | None => false
              end) keywordScores in
  firstn topK (stableSort byKeywordScore matches).

(* ================================================================== *)
(** ** Similarity, MMR and retrieval *)

Definition Qltb (x y : Q) : bool := negb (Qle_bool y x).

(** [Math.max(a, b)] *)
Definition maxQ (a b : Q) : Q := if Qle_bool a b then b else a.

(** Arithmetic on a number that may be NaN ([None]); an operand that is
    [undefined] counts as NaN. *)
Definition nanAdd (a b : option Q) : option Q :=
  match a, b with
  | Some x, Some y => Some (x + y)
  | _, _ => None
  end.

Definition nanMul (a b : option Q) : option Q :=
  match a, b with
  | Some x, Some y => Some (x * y)
  | _, _ => None
  end.

Definition nanDiv (a b : option Q) : option Q :=
  match a, b with
  | Some x, Some y => Some (x / y)
  | _, _ => None
  end.

(** [Math.max(a, b)], NaN when an argument is. *)
Definition nanMax (a b : option Q) : option Q :=
  match a, b with
  | Some x, Some y => Some (maxQ x y)
  | _, _ => None
  end.

(** [x === 0] *)
Definition isZero (a : option Q) : bool :=
  match a with
  | Some x => Qeq_bool x 0
  | None => false
  end.

Section Engine.
(** [Math.sqrt] and the embedding service. *)
Variable sqrt : Q -> Q.
Variable generateQueryEmbedding : string -> list Q.

(** [cosineSimilarity] on any two vectors, with NaN as [None]. The loops
    run over the indices of [vecA]; [vecB[i]] past the end of [vecB] is
    [undefined], which makes the dot product and [magB] NaN. *)
Definition cosineOrNaN (vecA vecB : list Q) : option Q :=
  let indices := seq 0 (List.length vecA) in
  let dotProduct :=
    fold_left
      (fun acc i => nanAdd acc (nanMul (nth_error vecA i) (nth_error vecB i)))
      indices (Some 0) in
  let magA :=
    fold_left
      (fun acc i => nanAdd acc (nanMul (nth_error vecA i) (nth_error vecA i)))
      indices (Some 0) in
  let magB :=
    fold_left
      (fun acc i => nanAdd acc (nanMul (nth_error vecB i) (nth_error vecB i)))
      indices (Some 0) in
  let magA := option_map sqrt magA in
  let magB := option_map sqrt magB in
  if isZero magA || isZero magB then Some 0
  else nanDiv dotProduct (nanMul magA magB).

(** [cosineSimilarity] where its value is a number: this is the value of
    [cosineOrNaN] when [vecB] is at least as long as [vecA]
    ([cosineOrNaN_number] below). For a shorter [vecB] the code yields NaN,
    which no rational stands for; the properties whose truth depends on
    the value carry the hypothesis that the dimensions agree. *)
Definition cosineSimilarity (vecA vecB : list Q) : Q :=
  let indices := seq 0 (List.length vecA) in
  let dotProduct :=
    fold_left (fun acc i => acc + nth i vecA 0 * nth i vecB 0) indices 0 in
  let magA :=
    fold_left (fun acc i => acc + nth i vecA 0 * nth i vecA 0) indices 0 in
  let magB :=
    fold_left (fun acc i => acc + nth i vecB 0 * nth i vecB 0) indices 0 in
  let magA := sqrt magA in
  let magB := sqrt magB in
  if Qeq_bool magA 0 || Qeq_bool magB 0 then 0
  else dotProduct / (magA * magB).

Definition findSimilarDocuments (queryEmbedding : list Q)
    (embeddings : list Doc) (topK : nat) : list Doc :=
  let similarities :=
    map (fun doc =>
           withSimilarity doc
             (cosineSimilarity queryEmbedding (embedding doc)))
        embeddings in
  firstn topK (stableSort bySimilarity similarities).

(** The inner [for (const selectedDoc of selected)]; NaN ([None]) once a
    similarity between two embeddings is NaN. *)
Definition maxSimilarityToSelected (doc : Doc) (selected : list Doc)
    : option Q :=
  fold_left
    (fun m selectedDoc =>
       nanMax m (cosineOrNaN (embedding doc) (embedding selectedDoc)))
    selected (Some 0).

(** [lambda * doc.similarity - (1 - lambda) * maxSimilarityToSelected];
    the score is NaN, here [None], when the document has no similarity or
    the maximum is NaN. *)
Definition mmrScore (lambda : Q) (selected : list Doc) (doc : Doc)
    : option Q :=
  match similarity doc with
  | Some s =>
      match maxSimilarityToSelected doc selected with
      | Some m => Some (lambda * s - (1 - lambda) * m)
      | None => None
      end
  | None => None
  end.

(** [mmrScore > bestScore], where [bestScore = None] is [-Infinity] and a
    NaN score compares false. *)
Definition beats (score : option Q) (bestScore : option Q) : bool :=
  match score, bestScore with
  | Some s, Some b => Qltb b s
  | Some _, None => true
  | None, _ => false
  end.

(** [for (let i = 0; i < remaining.length; i++)]: the final [bestIndex];
    [None] is the initial [-1]. *)
Fixpoint scanBest (lambda : Q) (selected remaining : list Doc) (i : nat)
    (bestScore : option Q) (bestIndex : option nat) : option nat :=
  match remaining with
  | [] => bestIndex
  | doc :: rest =>
      let score := mmrScore lambda selected doc in
      if beats score bestScore
      then scanBest lambda selected rest (S i) score (Some i)
      else scanBest lambda selected rest (S i) bestScore bestIndex
  end.

(** [while (selected.length < topK && remaining.length > 0)]. The result
    is [None] when [remaining[bestIndex]] is [undefined] (no score beat
    [-Infinity]) or when [fuel] turns of the loop were not enough. *)
Fixpoint mmrLoop (fuel : nat) (topK : nat) (lambda : Q)
    (selected remaining : list Doc) : option (list Doc) :=
  if (List.length selected <? topK)%nat
     && (0 <? List.length remaining)%nat
  then
    match fuel with
    | O => None
    | S fuel' =>
        match scanBest lambda selected remaining 0 None None with
        | Some bestIndex =>
            match nth_error remaining bestIndex with
            | Some best =>
                mmrLoop fuel' topK lambda (selected ++ [best])
                  (removeAt bestIndex remaining)
            | None => None
            end
        | None => None
        end
    end
  else Some selected.

(** [None]: the call does not return an array of documents. It has
    pushed [undefined], and either returns the array that holds it or
    throws in the next turn on reading its [embedding]. *)
Definition applyMMR (candidates : list Doc) (queryEmbedding : list Q)
    (topK : nat) (lambda : Q) : option (list Doc) :=
  if (List.length candidates <=? topK)%nat then Some candidates
  else
    match stableSort bySimilarity candidates with
    | first :: remaining =>
        mmrLoop (List.length remaining) topK lambda [first] remaining
    | [] => None
    end.

(** [if (doc.similarity === undefined)
      doc.similarity = cosineSimilarity(queryEmbedding, doc.embedding)] *)
Definition ensureSimilarity (queryEmbedding : list Q) (doc : Doc) : Doc :=
  match similarity doc with
  | Some _ => doc
  | None =>
      withSimilarity doc (cosineSimilarity queryEmbedding (embedding doc))
  end.

(** A slot of the [embeddings] array: the address of the object it
    refers to, and the state of that object. [filter] keeps references,
    so an assignment through a filtered array reaches the corpus. *)
Definition Ref : Type := nat * Doc.

Definition refsOf (embeddings : list Doc) : list Ref :=
  combine (seq 0 (List.length embeddings)) embeddings.

(** The corpus after [doc.similarity] was assigned through the
    references [touched]. *)
Definition assignSimilarity (queryEmbedding : list Q) (touched : list nat)
    (embeddings : list Doc) : list Doc :=
  map (fun r : Ref =>
         if existsb (Nat.eqb (fst r)) touched
         then ensureSimilarity queryEmbedding (snd r) else snd r)
      (refsOf embeddings).

(** The two intent branches: [matches] selects the documents, the best
    [n] by similarity are pushed unless their key is present. Returns
    the new [filtered] and the addresses written to. *)
Definition boost (queryEmbedding : list Q) (matches : Doc -> bool)
    (n : nat) (filteredEmbeddings : list Ref) (filtered : list Doc)
    : list Doc * list nat :=
  let typeMatches := filter (fun r : Ref => matches (snd r))
                            filteredEmbeddings in
  if (0 <? List.length typeMatches)%nat then
    let scored :=
      map (fun r : Ref => (fst r, ensureSimilarity queryEmbedding (snd r)))
          typeMatches in
    let sorted :=
      stableSort (fun a b : Ref => bySimilarity (snd a) (snd b)) scored in
    let topTypeMatches := firstn n sorted in
    (fold_left (pushIfNew (fun d : Doc => d)) (map snd topTypeMatches)
       filtered,
     map fst typeMatches)
  else (filtered, []).

Definition matchesItemType (itemType : string) (doc : Doc) : bool :=
  match meta_type (metadata doc) with
  | Some t => String.eqb t itemType
  | None => false
  end
  || includes (toLowerCase (content doc)) itemType.

Definition matchesFocusTroop (focusTroop : string) (doc : Doc) : bool :=
  match meta_name (metadata doc) with
  | Some name =>
      negb (String.eqb name EmptyString)
      && includes (toLowerCase name) focusTroop
  | None => false
  end
  || includes (toLowerCase (content doc)) focusTroop.

(** The merge of the semantic and the keyword results, every entry with
    a similarity. *)
Definition combinedResults (query : string)
    (filteredEmbeddings : list Doc) : list Doc :=
  let queryEmbedding := generateQueryEmbedding query in
  let keywords := extractKeywords query in
  let semanticMatches :=
    findSimilarDocuments queryEmbedding filteredEmbeddings 7 in
  let keywordMatches := findKeywordMatches keywords filteredEmbeddings 7 in
  let combined :=
    fold_left (pushIfNew (fun d : Doc => d)) keywordMatches
      semanticMatches in
  map (ensureSimilarity queryEmbedding) combined.

(** [retrieveContext] up to the call of [applyMMR]: the candidate list
    [filtered] and the corpus as the call leaves it. *)
Definition retrieveCandidates (query : string)
    (queryAnalysis : QueryAnalysis) (embeddings : list Doc)
    : list Doc * list Doc :=
  let thLevel :=
    orNumber (townHallLevel (params queryAnalysis))
             (targetTH (params queryAnalysis)) in
  let filteredEmbeddings :=
    filterByTownHallLevel snd thLevel (refsOf embeddings) in
  let queryEmbedding := generateQueryEmbedding query in
  let filtered := combinedResults query (map snd filteredEmbeddings) in
  let ps := params queryAnalysis in
  let '(filtered, touched) :=
    if Intent_eqb (intent queryAnalysis) upgrade_priority
       && truthy (itemType ps)
    then
      match itemType ps with
      | Some it =>
          boost queryEmbedding (matchesItemType it) 3 filteredEmbeddings
            filtered
      | None => (filtered, [])
      end
    else if Intent_eqb (intent queryAnalysis) attack_strategy
            && truthy (focusTroop ps)
    then
      match focusTroop ps with
      | Some ft =>
          boost queryEmbedding (matchesFocusTroop ft) 2 filteredEmbeddings
            filtered
      | None => (filtered, [])
      end
    else (filtered, []) in
  (filtered, assignSimilarity queryEmbedding touched embeddings).

(** The result of the call ([None]: no list of documents is returned)
    and the corpus after it. *)
Definition retrieveContext (query : string) (queryAnalysis : QueryAnalysis)
    (embeddings : list Doc) : option (list Doc) * list Doc :=
  let '(filtered, embeddings') :=
    retrieveCandidates query queryAnalysis embeddings in
  (applyMMR filtered (generateQueryEmbedding query) 5 (7 # 10),
   embeddings').
End Engine.

(* ================================================================== *)
(** ** Prompt builder *)

Definition nl : string := String "010"%char EmptyString.

Definition dquote : string := String "034"%char EmptyString.

(** The lines of a template literal. *)
Definition lines (ls : list string) : string := join nl ls.

Local Infix "^^" := String.append (at level 60, right associativity).

(** [`${n || dflt}`] for a number. *)
Definition numberOr (n : option Z) (dflt : string) : string :=
  match n with
  | Some z => if (z =? 0)%Z then dflt else numberToString z
  | None => dflt
  end.

(** [`${s || dflt}`] for a string. *)
Definition stringOr (s : option string) (dflt : string) : string :=
  match s with
  | Some v => if String.eqb v EmptyString then dflt else v
  | None => dflt
  end.

(** [`${s ? label + s : ''}`] *)
Definition optionalLine (label : string) (s : option string) : string :=
  match s with
  | Some v => if String.eqb v EmptyString then EmptyString else label ^^ v
  | None => EmptyString
  end.

(** [s === v] for an optional string. *)
Definition isValue (s : option string) (v : string) : bool :=
  match s with
  | Some x => String.eqb x v
  | None => false
  end.

Definition intentString (i : Intent) : string :=
  match i with
  | general => "general"
  | upgrade_priority => "upgrade_priority"
  | attack_strategy => "attack_strategy"
  | base_design => "base_design"
  | resource_management => "resource_management"
  end.

(** [s.replace(/_/g, ' ')] *)
Fixpoint replaceUnderscores (s : string) : string :=
  match s with
  | EmptyString => EmptyString
  | String c s' =>
      String (if Ascii.eqb c "_"%char then " "%char else c)
        (replaceUnderscores s')
  end.

(** [`[Document ${index + 1}] ${name ? name + ': ' : ''}${content.trim()}`] *)
Definition excerpt (index : nat) (doc : Doc) : string :=
  "[Document " ^^ numberToString (Z.of_nat index + 1) ^^ "] "
  ^^ match meta_name (metadata doc) with
     | Some name =>
         if String.eqb name EmptyString then EmptyString else name ^^ ": "
     | None => EmptyString
     end
  ^^ trim (content doc).

Fixpoint excerptsFrom (index : nat) (docs : list Doc) : list string :=
  match docs with
  | [] => []
  | doc :: rest => excerpt index doc :: excerptsFrom (S index) rest
  end.

Definition contextInfo (contextDocs : list Doc) : string :=
  join (nl ^^ nl) (excerptsFrom 0 contextDocs).

Definition upgradeInstructions (ps : Params) : string :=
  lines
    [ "";
      "    - Focus on providing upgrade priority recommendations";
      "    - Consider the player's Town Hall level ("
        ^^ numberOr (townHallLevel ps) "unknown" ^^ ")";
      "    - Prioritize items that will have the biggest impact on gameplay";
      "    - Provide a clear ordering of what to upgrade first, second, etc.";
      "    - Consider both offensive and defensive upgrades";
      "    - Mention specific unit levels and building levels where appropriate";
      "    - Consider resource constraints (gold vs. elixir vs. dark elixir)";
      "    - Specify which laboratory upgrades are most valuable";
      "    " ]
  ^^ (if isValue (focus ps) "offense" then
        lines
          [ "";
            "      - Focus specifically on offensive upgrades (troops, spells, heroes, army buildings)";
            "      - Prioritize units that are versatile across multiple attack strategies";
            "      " ]
      else if isValue (focus ps) "defense" then
        lines
          [ "";
            "      - Focus specifically on defensive upgrades (defensive buildings, traps, walls)";
            "      - Prioritize defenses that protect against common attack strategies";
            "      " ]
      else EmptyString).

Definition attackInstructions (ps : Params) : string :=
  lines
    [ "";
      "    - Recommend a specific, detailed attack strategy";
      "    - Include army composition with specific troop counts";
      "    - Explain the deployment order and timing";
      "    - Mention which spells to use and when";
      "    - Consider the target Town Hall level ("
        ^^ numberOr (targetTH ps) "unknown" ^^ ")";
      "    - Explain how to handle common base layouts";
      "    - Include hero usage recommendations";
      "    - Mention potential backup plans if parts of the attack fail";
      "    " ]
  ^^ (if isValue (attackType ps) "air" then
        lines
          [ "";
            "      - Focus on air-based strategies";
            "      - Explain how to handle air defenses and air bombs";
            "      " ]
      else if isValue (attackType ps) "ground" then
        lines
          [ "";
            "      - Focus on ground-based strategies";
            "      - Explain how to handle walls, traps, and splash damage";
            "      " ]
      else EmptyString)
  ^^ (if isValue (purpose ps) "farming" then
        lines
          [ "";
            "      - Optimize for resource collection rather than total destruction";
            "      - Consider army training costs and time";
            "      " ]
      else if isValue (purpose ps) "war" then
        lines
          [ "";
            "      - Optimize for 3-star attacks";
            "      - Assume time is not a constraint for training";
            "      " ]
      else if isValue (purpose ps) "trophy" then
        lines
          [ "";
            "      - Optimize for securing at least 2 stars consistently";
            "      - Balance army training time and effectiveness";
            "      " ]
      else EmptyString).

Definition baseInstructions (ps : Params) : string :=
  lines
    [ "";
      "    - Provide base design principles for a "
        ^^ stringOr (baseType ps) "general" ^^ " base";
      "    - Consider Town Hall level "
        ^^ numberOr (townHallLevel ps) "unknown";
      "    - Explain the placement of key defenses";
      "    - Discuss wall arrangement and compartments";
      "    - Mention trap placement with specific locations";
      "    - Explain how to protect key buildings (Town Hall, resource storages, etc.)";
      "    - Provide a logical layout sequence or zones";
      "    - Explain how the design counters common attack strategies";
      "    " ].

Definition resourceInstructions (ps : Params) : string :=
  lines
    [ "";
      "    - Provide advice on " ^^ stringOr (goal ps) "managing" ^^ " "
        ^^ stringOr (resourceType ps) "resources";
      "    - Consider the player's Town Hall level ("
        ^^ numberOr (townHallLevel ps) "unknown" ^^ ")";
      "    - Suggest specific farming strategies if appropriate";
      "    - Explain upgrade priority from a resource efficiency perspective";
      "    - Provide tips for protecting resources from raids";
      "    - Mention ways to maximize resource production";
      "    - Suggest the best leagues or trophy ranges for resource collection";
      "    " ].

Definition intentInstructions (queryAnalysis : QueryAnalysis) : string :=
  match intent queryAnalysis with
  | upgrade_priority => upgradeInstructions (params queryAnalysis)
  | attack_strategy => attackInstructions (params queryAnalysis)
  | base_design => baseInstructions (params queryAnalysis)
  | resource_management => resourceInstructions (params queryAnalysis)
  | general => EmptyString
  end.

(** The lines of the [QUERY ANALYSIS] block. *)
Definition analysisLines (queryAnalysis : QueryAnalysis) : list string :=
  let ps := params queryAnalysis in
  [ "QUERY ANALYSIS:";
    "- Intent: " ^^ replaceUnderscores (intentString (intent queryAnalysis));
    "- Town Hall Level: "
      ^^ numberOr (orNumber (townHallLevel ps) (targetTH ps)) "Unknown";
    optionalLine "- Focus Troop: " (focusTroop ps);
    optionalLine "- Attack Type: " (attackType ps);
    optionalLine "- Base Type: " (baseType ps);
    optionalLine "- Item Type: " (itemType ps) ].

(** The template up to [${contextInfo}]. *)
Definition promptBeforeContext (query : string)
    (queryAnalysis : QueryAnalysis) : string :=
  lines
    ([ "";
       "You are a Clash of Clans Strategy Advisor, knowledgeable about all aspects of the game including troops, buildings, spells, attack strategies, and base designs across all Town Hall levels.";
       "";
       "USER QUERY: " ^^ dquote ^^ query ^^ dquote;
       "" ]
     ++ analysisLines queryAnalysis
     ++ [ "";
          "RELEVANT CLASH OF CLANS INFORMATION:";
          "" ]).

(** The template after [${contextInfo}]. *)
Definition promptAfterContext (queryAnalysis : QueryAnalysis) : string :=
  lines
    [ "";
      "";
      "INSTRUCTIONS:";
      "Please provide a comprehensive, accurate response to help the player with their question. Your response should be structured, helpful, and directly address their specific query.";
      "";
      intentInstructions queryAnalysis;
      "";
      "IMPORTANT GUIDELINES:";
      "- Use the provided context information, but don't just repeat it verbatim";
      "- If the context doesn't fully address the query, use your knowledge of Clash of Clans";
      "- Be specific and detailed in your recommendations";
      "- Always cite your sources when providing specific information (e.g., [Document X])";
      "- Only mention troops, spells, buildings, and features that exist in Clash of Clans";
      "- If you're unsure about any information, acknowledge the limitations";
      "- Present your response in a clear, structured format with headings and lists where appropriate";
      "- Focus on practical advice that can be implemented immediately";
      "";
      "Based on the user's query and available context, provide your most helpful response now.";
      "" ].

Definition generateAdvisorPrompt (query : string)
    (queryAnalysis : QueryAnalysis) (contextDocs : list Doc) : string :=
  promptBeforeContext query queryAnalysis
  ^^ contextInfo contextDocs
  ^^ promptAfterContext queryAnalysis.

(* ================================================================== *)
(** ** Response formatting *)

(** The first [n] characters removed. *)
Fixpoint dropChars (n : nat) (s : string) : string :=
  match n, s with
  | O, _ => s
  | S n', String _ s' => dropChars n' s'
  | S _, EmptyString => EmptyString
  end.

Definition artifacts : list string :=
  [ "RELEVANT CLASH OF CLANS INFORMATION:";
    "IMPORTANT GUIDELINES:";
    "Based on the user's query and available context," ].

(** The first alternative of the pattern that matches at the start of
    [s]. *)
Fixpoint firstPrefix (alternatives : list string) (s : string)
    : option string :=
  match alternatives with
  | [] => None
  | a :: rest => if String.prefix a s then Some a else firstPrefix rest s
  end.

(** [s.replace(/A|B|C/g, '')] for the three literal alternatives: one pass
    from the left; [skip] counts the characters of a match still to be
    passed over. *)
Fixpoint removeArtifactsLoop (s : string) (skip : nat) : string :=
  match s with
  | EmptyString => EmptyString
  | String c s' =>
      match skip with
      | S k => removeArtifactsLoop s' k
      | O =>
          match firstPrefix artifacts s with
          | Some a => removeArtifactsLoop s' (String.length a - 1)
          | None => String c (removeArtifactsLoop s' 0)
          end
      end
  end.

Definition removeArtifacts (s : string) : string := removeArtifactsLoop s 0.

(** [/\[Document (\d+)\]/] tried at the start of [s]: the digits. *)
Definition citationAt (s : string) : option string :=
  if String.prefix "[Document " s then
    let rest := dropChars 10 s in
    let digits := takeDigits rest in
    if negb (String.eqb digits EmptyString)
       && String.prefix "]" (dropChars (String.length digits) rest)
    then Some digits else None
  else None.

(** [s.replace(/\[Document (\d+)\]/g, '[Source: Document $1]')] *)
Fixpoint rewriteCitationsLoop (s : string) (skip : nat) : string :=
  match s with
  | EmptyString => EmptyString
  | String c s' =>
      match skip with
      | S k => rewriteCitationsLoop s' k
      | O =>
          match citationAt s with
          | Some digits =>
              ("[Source: Document " ++ digits ++ "]"
               ++ rewriteCitationsLoop s' (10 + String.length digits))%string
          | None => String c (rewriteCitationsLoop s' 0)
          end
      end
  end.

Definition rewriteCitations (s : string) : string :=
  rewriteCitationsLoop s 0.

(** [s.split(sep)] for a non-empty literal separator. *)
Fixpoint splitOnLoop (sep s cur : string) (skip : nat) : list string :=
  match s with
  | EmptyString => [cur]
  | String c s' =>
      match skip with
      | S k => splitOnLoop sep s' cur k
      | O =>
          if String.prefix sep s
          then cur :: splitOnLoop sep s' EmptyString (String.length sep - 1)
          else splitOnLoop sep s' (cur ++ String c EmptyString) 0
      end
  end.

Definition splitOn (sep s : string) : list string :=
  splitOnLoop sep s EmptyString 0.

(** The [for] loop over the middle paragraphs, numbered from [i]. *)
Fixpoint priorities (i : nat) (middle : list string) : string :=
  match middle with
  | [] => EmptyString
  | p :: rest =>
      ("## Priority " ++ numberToString (Z.of_nat i) ++ ": " ++ p
       ++ nl ++ nl ++ priorities (S i) rest)%string
  end.

(** The restructured guide, for at least three paragraphs. *)
Definition priorityGuide (ps : Params) (paragraphs : list string) : string :=
  match paragraphs with
  | first :: rest =>
      ("# Upgrade Priority Guide for "
       ++ match townHallLevel ps with
          | Some n =>
              if (n =? 0)%Z then "Your Town Hall"
              else "TH" ++ numberToString n
          | None => "Your Town Hall"
          end
       ++ nl ++ nl
       ++ first ++ nl ++ nl
       ++ priorities 1 (removelast rest)
       ++ "## Final Recommendations" ++ nl ++ nl
       ++ last rest EmptyString)%string
  | [] => EmptyString
  end.

Definition formatResponse (response : string) (queryAnalysis : QueryAnalysis)
    : string :=
  let cleaned := removeArtifacts response in
  let cleaned := rewriteCitations cleaned in
  if Intent_eqb (intent queryAnalysis) upgrade_priority
     && negb (includes cleaned "Priority")
     && negb (includes cleaned "Upgrade")
  then
    let paragraphs :=
      filter (fun p => (0 <? String.length (trim p))%nat)
             (splitOn (nl ++ nl) cleaned) in
    if (3 <=? List.length paragraphs)%nat
    then priorityGuide (params queryAnalysis) paragraphs
    else cleaned
  else cleaned.

(* ================================================================== *)
(** ** Answering a query *)

(** An entry of [sources]. [null] is [None]. *)
Record Source : Type := mkSource {
  source_name : string;
  source_type : string;
  source_category : string;
  source_url : option string;
  source_relevance : option Z
}.

(** [Math.round(x)]: the nearest integer, a half goes up. *)
Definition round (x : Q) : Z := Qfloor (x + (1 # 2)).

(** [doc.similarity ? Math.round(doc.similarity * 100) : null]. The
    product is the one of double-precision arithmetic, [multiply]: the
    double nearest to the exact product, which [Math.round] then rounds
    exactly. *)
Definition relevanceOf (multiply : Q -> Q -> Q) (doc : Doc) : option Z :=
  match similarity doc with
  | Some s => if Qeq_bool s 0 then None else Some (round (multiply s 100))
  | None => None
  end.

Definition sourceOf (multiply : Q -> Q -> Q) (doc : Doc) : Source :=
  mkSource
    (stringOr (meta_name (metadata doc)) "Unknown")
    (stringOr (meta_type (metadata doc)) "Unknown")
    (stringOr (Some (meta_category (metadata doc))) "Unknown")
    (match meta_url (metadata doc) with
     | Some u => if String.eqb u EmptyString then None else Some u
     | None => None
     end)
    (relevanceOf multiply doc).

(** The object [processQuery] returns. *)
Record Answer : Type := mkAnswer {
  answer_query : string;
  answer_intent : Intent;
  answer_parameters : Params;
  answer_response : string;
  answer_sources : list Source;
  answer_contextCount : nat;
  answer_queryKeywords : list string;
  answer_generatedAt : string
}.

Section Advisor.
(** The collaborators of [processQuery]: the square root and the
    embedding service as before, the product of two doubles, the corpus
    [loadData] reads on every call, the language model and the clock. *)
Variable sqrt : Q -> Q.
Variable multiply : Q -> Q -> Q.
Variable generateQueryEmbedding : string -> list Q.
Variable embeddings : list Doc.
Variable runLLMInference : string -> string.
Variable now : string.

(** [None]: the retrieval selected [undefined]; reading its [metadata]
    throws and no answer is built. *)
Definition processQuery (query : string) : option Answer :=
  let queryAnalysis := analyzeQuery query in
  match fst (retrieveContext sqrt generateQueryEmbedding query queryAnalysis
               embeddings) with
  | Some contextDocs =>
      let prompt := generateAdvisorPrompt query queryAnalysis contextDocs in
      let rawResponse := runLLMInference prompt in
      let formattedResponse := formatResponse rawResponse queryAnalysis in
      Some (mkAnswer query (intent queryAnalysis) (params queryAnalysis)
              formattedResponse (map (sourceOf multiply) contextDocs)
              (List.length contextDocs) (extractKeywords query) now)
  | None => None
  end.
End Advisor.

(* ================================================================== *)
(** ** Routes of the advisor *)

Inductive Body : Type :=
  | ErrorBody (error : string) (message : option string)
  | AnswerBody (answer : Answer)
  | AnalysisBody (query : string) (analysis : QueryAnalysis)
      (keywords : list string).

Record Reply : Type := mkReply {
  status : nat;
  body : Body
}.

(** What the call of [processQuery] does inside the handler: it returns,
    or it throws an error with a message. *)
Inductive Outcome : Type :=
  | Returned (answer : Answer)
  | Thrown (message : string).

(** [POST /advisor]; [query] is the field of the request body, a string
    or absent. *)
Definition advisorRoute (processQuery : string -> Outcome)
    (query : option string) : Reply :=
  match query with
  | None =>
      mkReply 400
        (ErrorBody "Missing required field: query"
           (Some ("Please provide a strategy question in the " ++ dquote
                  ++ "query" ++ dquote ++ " field")%string))
  | Some q =>
      if String.eqb q EmptyString then
        mkReply 400
          (ErrorBody "Missing required field: query"
             (Some ("Please provide a strategy question in the " ++ dquote
                    ++ "query" ++ dquote ++ " field")%string))
      else if (String.length q <? 5)%nat then
        mkReply 400
          (ErrorBody "Query too short"
             (Some "Please provide a more detailed question"))
      else
        match processQuery q with
        | Returned answer => mkReply 200 (AnswerBody answer)
        | Thrown message =>
            mkReply 500
              (ErrorBody "An error occurred while processing your query"
                 (Some message))
        end
  end.

(** [POST /advisor/analyze] *)
Definition analyzeRoute (query : option string) : Reply :=
  match query with
  | None => mkReply 400 (ErrorBody "Missing required field: query" None)
  | Some q =>
      if String.eqb q EmptyString
      then mkReply 400 (ErrorBody "Missing required field: query" None)
      else mkReply 200 (AnalysisBody q (analyzeQuery q) (extractKeywords q))
  end.

(* ================================================================== *)
(** ** Retrieval of the battle simulator

    [src/strategy-simulator/api.js] has its own [findSimilarDocuments] and
    looks documents up by the names of the units of an army and of the
    buildings of a base. *)

Module Simulator.

(** A retrieved object: a copy of a corpus record with its similarity
    ([{...doc, similarity}]), or the object that the simulator's
    [findSimilarDocuments] builds from the position of the record, its
    similarity, content and metadata. *)
Inductive Hit : Type :=
  | Scored (doc : Doc)
  | Ranked (index : nat) (similarity : Q) (content : string)
      (metadata : Metadata).

Definition hitMetadata (h : Hit) : Metadata :=
  match h with
  | Scored doc => metadata doc
  | Ranked _ _ _ m => m
  end.

Definition hitSimilarity (h : Hit) : option Q :=
  match h with
  | Scored doc => similarity doc
  | Ranked _ s _ _ => Some s
  end.

(** [`${doc.metadata.id}-${doc.metadata.category}`] *)
Definition hitKey (h : Hit) : string :=
  (meta_id (hitMetadata h) ++ "-" ++ meta_category (hitMetadata h))%string.

(** [(a, b) => b.similarity - a.similarity] on retrieved objects. *)
Definition byHitSimilarity (a b : Hit) : Q :=
  match hitSimilarity a, hitSimilarity b with
  | Some x, Some y => y - x
  | _, _ => 0
  end.

(** An army: the entries of [troops], [spells] and [heroes] in the order
    [Object.entries] lists them, with their quantity or level. *)
Record ArmyComposition : Type := mkArmy {
  army_troops : option (list (string * Z));
  army_spells : option (list (string * Z));
  army_heroes : option (list (string * Z));
  army_siegeMachine : option string
}.

Record BaseLayout : Type := mkBase {
  base_defenses : option (list (string * Z));
  base_townHallLevel : option Z
}.

(** One turn of the deduplication loop: [seen] is the set of keys,
    [uniqueDocs] the array. *)
Definition dedupStep (state : list string * list Hit) (doc : Hit)
    : list string * list Hit :=
  let '(seen, uniqueDocs) := state in
  if arrayIncludes seen (hitKey doc) then state
  else (seen ++ [hitKey doc], uniqueDocs ++ [doc]).

Definition deduplicate (relevantDocs : list Hit) : list Hit :=
  snd (fold_left dedupStep relevantDocs ([], [])).

Section Retrieval.
Variable sqrt : Q -> Q.
Variable generateQueryEmbedding : string -> list Q.

Definition findSimilarDocuments (queryEmbedding : list Q) (embeddings : list Doc)
    (topK : nat) : list Hit :=
  let similarities :=
    map (fun r : nat * Doc =>
           Ranked (fst r)
             (cosineSimilarity sqrt queryEmbedding (embedding (snd r)))
             (content (snd r)) (metadata (snd r)))
        (combine (seq 0 (List.length embeddings)) embeddings) in
  firstn topK (stableSort byHitSimilarity similarities).

(** [doc.metadata.name &&
     doc.metadata.name.toLowerCase() === itemName.toLowerCase()] *)
Definition namedLike (itemName : string) (doc : Doc) : bool :=
  match meta_name (metadata doc) with
  | Some name =>
      negb (String.eqb name EmptyString)
      && String.eqb (toLowerCase name) (toLowerCase itemName)
  | None => false
  end.

Definition itemQuery (itemName itemType : string) : string :=
  ("Information about " ++ itemName
   ++ (if String.eqb itemType EmptyString then EmptyString
       else " " ++ itemType)
   ++ " in Clash of Clans")%string.

Definition findItemInfo (itemName : string) (embeddings : list Doc)
    (itemType : string) : list Hit :=
  let queryEmbedding :=
    generateQueryEmbedding (itemQuery itemName itemType) in
  let exactMatches := filter (namedLike itemName) embeddings in
  if (0 <? List.length exactMatches)%nat then
    let exactMatchesWithSim :=
      map (fun doc =>
             Scored (withSimilarity doc
                       (cosineSimilarity sqrt queryEmbedding
                          (embedding doc))))
          exactMatches in
    firstn 2 (stableSort byHitSimilarity exactMatchesWithSim)
  else findSimilarDocuments queryEmbedding embeddings 2.

(** [for (const [name, quantity] of Object.entries(items))
      if (quantity > 0) relevantDocs.push(...findItemInfo(name, ...))] *)
Definition lookupEntries (embeddings : list Doc) (itemType : string)
    (entries : option (list (string * Z))) : list Hit :=
  match entries with
  | Some items =>
      flat_map
        (fun entry : string * Z =>
           if (0 <? snd entry)%Z
           then findItemInfo (fst entry) embeddings itemType
           else [])
        items
  | None => []
  end.

Definition retrieveArmyInfo (armyComposition : ArmyComposition)
    (embeddings : list Doc) : list Hit :=
  let relevantDocs :=
    lookupEntries embeddings "troop" (army_troops armyComposition)
    ++ lookupEntries embeddings "spell" (army_spells armyComposition)
    ++ lookupEntries embeddings "hero" (army_heroes armyComposition)
    ++ (if truthy (army_siegeMachine armyComposition) then
          match army_siegeMachine armyComposition with
          | Some siege => findItemInfo siege embeddings "siege machine"
          | None => []
          end
        else []) in
  firstn 5 (deduplicate relevantDocs).

Definition retrieveBaseInfo (baseLayout : BaseLayout)
    (embeddings : list Doc) : list Hit :=
  let relevantDocs :=
    lookupEntries embeddings "defense" (base_defenses baseLayout)
    ++ match base_townHallLevel baseLayout with
       | Some level =>
           if (level =? 0)%Z then []
           else
             findSimilarDocuments
               (generateQueryEmbedding
                  ("Information about Town Hall level "
                   ++ numberToString level ++ " in Clash of Clans"))
               embeddings 2
       | None => []
       end in
  firstn 3 (deduplicate relevantDocs).
End Retrieval.

End Simulator.

(* ================================================================== *)
(** ** Vocabulary of the properties *)

Section Keys.
(** Arrays of references are read through [doc]. *)
Context {A : Type} (doc : A -> Doc).

Definition keyOf (x : A) : string * string := key (doc x).

(** [acc.some(d => sameKey(d, x))] *)
Definition present (acc : list A) (x : A) : bool :=
  existsb (fun d => sameKey (doc d) (doc x)) acc.
End Keys.

(** The document carries a numeric [similarity]. *)
Definition hasSimilarity (d : Doc) : Prop := similarity d <> None.



(** Modelled after the words "the top K candidates by similarity": sort by
    descending similarity, keep the first [K]. These are the last two
    steps of [findSimilarDocuments]. *)
Definition topKBySimilarity (candidates : list Doc) (K : nat) : list Doc :=
  firstn K (stableSort bySimilarity candidates).

(** The documents an intent branch offers to the candidate list: the best
    [n] by similarity among the documents of [docs] that [matches]
    selects. *)
Definition boostedTop (sqrt : Q -> Q) (q : list Q) (matches : Doc -> bool)
    (n : nat) (docs : list Doc) : list Doc :=
  firstn n
    (stableSort bySimilarity
       (map (ensureSimilarity sqrt q) (filter matches docs))).

(** The tier-filtered corpus, as values. *)
Definition tiered (qa : QueryAnalysis) (corpus : list Doc) : list Doc :=
  filterByTownHallLevel (fun d : Doc => d)
    (orNumber (townHallLevel (params qa)) (targetTH (params qa))) corpus.

(** The words whose presence is the signal for each parameter. *)
Definition itemTypeSignals : list string :=
  [ "troop"; "army"; "spell"; "hero"; "defense"; "building"; "structure";
    "tower"; "cannon"; "mortar" ].

Definition focusSignals : list string :=
  [ "offense"; "attack"; "troop"; "spell"; "army"; "defense"; "defend";
    "wall"; "protect" ].

Definition attackTypeSignals : list string :=
  [ "air"; "dragon"; "balloon"; "hound"; "ground"; "hog"; "giant"; "golem";
    "pekka"; "barbarian"; "archer" ].

Definition purposeSignals : list string :=
  [ "farm"; "loot"; "war"; "clan war"; "trophy"; "push" ].

Definition baseTypeSignals : list string :=
  [ "farm"; "loot"; "war"; "clan war"; "trophy"; "push"; "hybrid" ].

Definition resourceTypeSignals : list string := [ "gold"; "elixir"; "gem" ].

Definition goalSignals : list string :=
  [ "save"; "store"; "farm"; "collect"; "get"; "spend"; "use" ].

(** The intent the ordered cascade assigns. *)
Definition cascade (lowerQuery : string) : Intent :=
  if isUpgradeQuery lowerQuery then upgrade_priority
  else if isAttackQuery lowerQuery then attack_strategy
  else if isBaseQuery lowerQuery then base_design
  else if isResourceQuery lowerQuery then resource_management
  else general.

(** A parameter is absent unless the intent is the one that owns it and
    one of its signal words occurs in the lower-cased query. *)
Definition absentWithoutSignal (r : QueryAnalysis) (lq : string)
    (p : Params -> option string) (owner : Intent) (signals : list string)
    : Prop :=
  p (params r) = None <-> (intent r <> owner \/ anyOf lq signals = false).

(** The reading of C8 as stated: among the unit names present in the
    query, the chosen one occurs first in the text. *)
Definition focusTroop_earliest_in_text (query : string) : Prop :=
  forall t t' i i',
    intent (analyzeQuery query) = attack_strategy ->
    focusTroop (params (analyzeQuery query)) = Some t ->
    In t' troops ->
    indexOf (toLowerCase query) t = Some i ->
    indexOf (toLowerCase query) t' = Some i' ->
    (i <= i')%nat.

(** Some document of [docs] has the key [k]. *)
Definition hasKey (k : string * string) (docs : list Doc) : bool :=
  existsb (fun d => String.eqb (fst (key d)) (fst k)
                    && String.eqb (snd (key d)) (snd k)) docs.

(** The sum of squares that [cosineSimilarity] takes the root of. *)
Definition squaredMagnitude (v : list Q) : Q :=
  fold_left (fun acc i => acc + nth i v 0 * nth i v 0)
    (seq 0 (List.length v)) 0.

(** The string consists of decimal digits. *)
Fixpoint allDigits (s : string) : bool :=
  match s with
  | EmptyString => true
  | String c s' => isDigit c && allDigits s'
  end.

(** The keywords of [extractKeywords] before the Town Hall step: the
    filtered words followed by the domain abbreviations found. *)
Definition baseKeywords (query : string) : list string :=
  fold_left (addTerm (cleanQuery query)) cocTerms
    (filter (fun word => (2 <? String.length word)%nat
                         && negb (arrayIncludes stopwords word))
            (splitWhitespace (cleanQuery query))).

(** The keyword score of a scored document. *)
Definition scoreOf (d : Doc) : Z :=
  match keywordScore d with
  | Some k => k
  | None => 0%Z
  end.


(** What a call may do to a corpus record: nothing, or fill in a missing
    similarity with the cosine to the query embedding. *)
Definition untouchedOrScored (sqrt : Q -> Q) (q : list Q) (c c' : Doc)
    : Prop :=
  c' = c
  \/ (similarity c = None
      /\ c' = withSimilarity c (cosineSimilarity sqrt q (embedding c))).

(** No entry has a positive quantity. *)
Definition noUnits (entries : option (list (string * Z))) : bool :=
  match entries with
  | Some items => forallb (fun entry => (snd entry <=? 0)%Z) items
  | None => true
  end.

(** The paragraphs that [formatResponse] counts. *)
Definition paragraphsOf (text : string) : list string :=
  filter (fun p => (0 <? String.length (trim p))%nat)
         (splitOn (nl ++ nl) text).





(* ================================================================== *)
(** ** Sample data *)

(** A square root on rationals for the examples: exact on the squares of
    fractions in lowest terms. *)
Definition sqrtQ (q : Q) : Q := Z.sqrt (Qnum q) # Pos.sqrt (Qden q).

(** An embedding service that maps every query to the first unit
    vector. *)
Definition embedUnit (_ : string) : list Q := [1; 0].

(** A corpus record as the corpus builder writes it: the name is the
    identifier, no score fields. *)
Definition corpusDoc (id category type content : string)
    (embedding : list Q) : Doc :=
  mkDoc content (mkMetadata id (Some id) (Some type) category None)
    embedding None None.

(** A scored candidate. *)
Definition candidate (id : string) (embedding : list Q) (s : Q) : Doc :=
  withSimilarity (corpusDoc id "basic_info" "troop" id embedding) s.

Definition threeCandidates : list Doc :=
  [ candidate "giant" [1; 0] (8 # 10);
    candidate "golem" [1; 0] (9 # 10);
    candidate "healer" [0; 1] (1 # 2) ].


Definition smallCorpus : list Doc :=
  [ corpusDoc "cannon" "basic_info" "defense"
      "Cannon. Unlocked at TH1, a cheap point defense." [1; 0];
    corpusDoc "barbarian" "basic_info" "troop"
      "Barbarian. The first troop of the barracks." [0; 1] ].

(** Five defenses that mention Town Hall 9 and one troop that does not. *)
Definition tierCorpus : list Doc :=
  [ corpusDoc "cannon" "basic_info" "defense"
      "Cannon. Level 11 is unlocked at TH9." [1; 0];
    corpusDoc "archer_tower" "basic_info" "defense"
      "Archer Tower. Level 11 is unlocked at TH9." [1; 0];
    corpusDoc "mortar" "basic_info" "defense"
      "Mortar. Level 7 is unlocked at TH9." [1; 0];
    corpusDoc "wizard_tower" "basic_info" "defense"
      "Wizard Tower. Level 7 is unlocked at TH9." [0; 1];
    corpusDoc "air_defense" "basic_info" "defense"
      "Air Defense. Level 7 is unlocked at TH9." [0; 1];
    corpusDoc "barbarian" "basic_info" "troop"
      "Barbarian. A melee fighter of the barracks." [1; 0] ].

(** Seven defenses that lie along the second axis and one troop along
    the first. *)
Definition defenseDoc (id : string) : Doc :=
  corpusDoc id "basic_info" "defense" (id ++ " defends the village.") [0; 1].

Definition eightCorpus : list Doc :=
  map defenseDoc
    [ "cannon"; "mortar"; "tesla"; "bomb tower"; "air sweeper"; "inferno";
      "scattershot" ]
  ++ [ corpusDoc "barbarian" "basic_info" "troop"
         "Barbarian. A melee fighter of the barracks." [1; 0] ].

(** An embedding service with two answers: queries about spells lie along
    the second axis, all others along the first. *)
Definition embedTwo (query : string) : list Q :=
  if includes (toLowerCase query) "spell" then [0; 1] else [1; 0].

Definition troopQuery : string := "Which troop should I upgrade first?".

Definition laterQuery : string :=
  "Which troop or spell should I upgrade next?".

Definition tierQuery : string := "What troop should I upgrade first at TH9?".

Definition twoUnitsQuery : string :=
  "How do I attack with dragon and archer at th 10".

Definition unscoredCandidates : list Doc :=
  [ corpusDoc "giant" "basic_info" "troop" "Giant." [1; 0];
    corpusDoc "golem" "basic_info" "troop" "Golem." [1; 0];
    corpusDoc "healer" "basic_info" "troop" "Healer." [0; 1] ].

Definition generalQuery : string := "Tell me about the clan castle".


(** A query about troops whose embedding lies along the second axis. *)
Definition armyQuery : string := "Which army or spell upgrade comes next?".

(** Seven attack plans along the first axis, none of which names a
    troop, and the dragon, whose name is the only place where the word
    occurs. *)
Definition guideDoc (id : string) : Doc :=
  corpusDoc id "strategies" "attack" (id ++ " is an attack plan.") [1; 0].

Definition attackCorpus : list Doc :=
  map guideDoc
    [ "attack plan 1"; "attack plan 2"; "attack plan 3"; "attack plan 4";
      "attack plan 5"; "attack plan 6"; "attack plan 7" ]
  ++ [ corpusDoc "dragon" "troops" "troop"
         "A flying unit that breathes fire." [0; 1] ].

Definition dragonQuery : string := "How do I attack with dragon?".


Definition sampleArmy : Simulator.ArmyComposition :=
  Simulator.mkArmy (Some [("Barbarian", 5%Z); ("Cannon", 0%Z)]) None None
    None.

(* ================================================================== *)
(** * Properties *)

(** ** Sample runs *)

Example extractKeywords_th9 :
  extractKeywords "What should I upgrade first at TH9?"
  = ["upgrade"; "first"; "th9"; "th"; "th9"; "townhall9"].
Proof. vm_compute. reflexivity. Qed.

Example analyzeQuery_th9 :
  analyzeQuery "What should I upgrade first at TH9?"
  = mkQueryAnalysis upgrade_priority
      (mkParams (Some 9%Z) None None None None None None None None None).
Proof. vm_compute. reflexivity. Qed.

Example analyzeQuery_two_units :
  analyzeQuery "How do I attack with dragon and archer at th 10"
  = mkQueryAnalysis attack_strategy
      (mkParams (Some 10%Z) None None None (Some "air") (Some "archer")
         None None None None).
Proof. vm_compute. reflexivity. Qed.

(** ** Keyword extraction *)

Lemma arrayIncludes_In (arr : list string) (x : string) :
  arrayIncludes arr x = true <-> In x arr.
Proof.
  unfold arrayIncludes. rewrite existsb_exists. split.
  - intros [y [Hy Heq]]. apply String.eqb_eq in Heq. now subst.
  - intros H. exists x. split; [assumption | apply String.eqb_refl].
Qed.

Lemma addTerm_keeps (c : string) (kws : list string) (t x : string) :
  In x kws -> In x (addTerm c kws t).
Proof.
  intros H. unfold addTerm.
  destruct (includes c t && negb (arrayIncludes kws t)); [|assumption].
  apply in_or_app. now left.
Qed.

Lemma addTerm_adds (c : string) (kws : list string) (t : string) :
  includes c t = true -> In t (addTerm c kws t).
Proof.
  intros H. unfold addTerm. rewrite H. simpl.
  destruct (arrayIncludes kws t) eqn:E; simpl.
  - now apply arrayIncludes_In.
  - apply in_or_app. right. now left.
Qed.

Lemma extractKeywords_keeps_terms (query x : string) :
  In x (fold_left (addTerm (cleanQuery query)) cocTerms
          (filter (fun word => (2 <? String.length word)%nat
                               && negb (arrayIncludes stopwords word))
                  (splitWhitespace (cleanQuery query)))) ->
  In x (extractKeywords query).
Proof.
  intros H. unfold extractKeywords.
  destruct (thMatch query) as [d|]; [|exact H].
  match goal with |- context [if ?b then _ else _] => destruct b end;
    [apply in_or_app; now left | exact H].
Qed.

(** C10. Whenever the cleaned query (lower-cased, punctuation removed)
    contains one of the domain abbreviations "th", "war", "coc" as a
    substring, anywhere and also inside a longer word, [extractKeywords]
    returns that abbreviation as a keyword of its own. *)
Theorem extractKeywords_abbreviation_by_substring :
  forall (query term : string),
    In term cocTerms ->
    includes (cleanQuery query) term = true ->
    In term (extractKeywords query).
Proof.
  intros query term Hin Hsub.
  apply extractKeywords_keeps_terms.
  unfold cocTerms in *. simpl in Hin. simpl fold_left.
  destruct Hin as [<- | [<- | [<- | []]]].
  - do 2 apply addTerm_keeps. now apply addTerm_adds.
  - apply addTerm_keeps. now apply addTerm_adds.
  - now apply addTerm_adds.
Qed.

Lemma extractKeywords_abbreviation_witness :
  In "th" cocTerms
  /\ includes (cleanQuery "Is the other one better?") "th" = true
  /\ In "th" (extractKeywords "Is the other one better?").
Proof.
  split; [simpl; now left |].
  split; [vm_compute; reflexivity |].
  apply (extractKeywords_abbreviation_by_substring
           "Is the other one better?" "th").
  - simpl. now left.
  - vm_compute. reflexivity.
Defined.

(** The query below has no word "th": the token comes from "the" and
    "other". *)
Example extractKeywords_the_other :
  extractKeywords "Is the other one better?" = ["other"; "one"; "better"; "th"].
Proof. vm_compute. reflexivity. Qed.

(** ** Arrays: sorting, splicing, pushing without duplicates *)

Section ArrayFacts.
Context {A : Type}.

Lemma insertSorted_perm (cmp : A -> A -> Q) (x : A) (l : list A) :
  Permutation (insertSorted cmp x l) (x :: l).
Proof.
  induction l as [|y l IH]; simpl.
  - apply Permutation_refl.
  - destruct (Qle_bool (cmp x y) 0).
    + apply Permutation_refl.
    + eapply perm_trans; [apply perm_skip, IH | apply perm_swap].
Qed.

Lemma stableSort_perm (cmp : A -> A -> Q) (l : list A) :
  Permutation (stableSort cmp l) l.
Proof.
  induction l as [|x l IH]; simpl.
  - apply perm_nil.
  - eapply perm_trans; [apply insertSorted_perm | now apply perm_skip].
Qed.

Lemma stableSort_length (cmp : A -> A -> Q) (l : list A) :
  List.length (stableSort cmp l) = List.length l.
Proof. apply Permutation_length, stableSort_perm. Qed.

Lemma stableSort_In (cmp : A -> A -> Q) (l : list A) (x : A) :
  In x (stableSort cmp l) <-> In x l.
Proof.
  split; apply Permutation_in;
    [apply stableSort_perm | apply Permutation_sym, stableSort_perm].
Qed.

Lemma removeAt_perm (i : nat) (l : list A) (x : A) :
  nth_error l i = Some x -> Permutation l (x :: removeAt i l).
Proof.
  revert l. induction i as [|i IH]; intros [|y l] H; simpl in H;
    try discriminate.
  - injection H as ->. apply Permutation_refl.
  - unfold removeAt. simpl.
    eapply perm_trans; [apply perm_skip, (IH l H) | apply perm_swap].
Qed.

Lemma removeAt_length (i : nat) (l : list A) (x : A) :
  nth_error l i = Some x -> S (List.length (removeAt i l)) = List.length l.
Proof.
  intros H. apply removeAt_perm in H.
  apply Permutation_length in H. simpl in H. now symmetry.
Qed.

Lemma In_firstn (n : nat) (l : list A) (x : A) :
  In x (firstn n l) -> In x l.
Proof.
  intros H. rewrite <- (firstn_skipn n l). apply in_or_app. now left.
Qed.

End ArrayFacts.

Lemma sameKey_eq (a b : Doc) : sameKey a b = true <-> key a = key b.
Proof.
  unfold sameKey, key. rewrite andb_true_iff, !String.eqb_eq. split.
  - intros [-> ->]. reflexivity.
  - intros H. now injection H.
Qed.

Section PushFacts.
Context {A : Type} (doc : A -> Doc).

Lemma present_In (acc : list A) (x : A) :
  present doc acc x = true <-> In (keyOf doc x) (map (keyOf doc) acc).
Proof.
  unfold present. rewrite existsb_exists, in_map_iff. split.
  - intros [d [Hd Hk]]. exists d. split; [|assumption].
    now apply sameKey_eq.
  - intros [d [Hk Hd]]. exists d. split; [assumption|].
    now apply sameKey_eq.
Qed.

Lemma pushIfNew_NoDup (acc : list A) (x : A) :
  NoDup (map (keyOf doc) acc) -> NoDup (map (keyOf doc) (pushIfNew doc acc x)).
Proof.
  intros H. unfold pushIfNew. fold (present doc acc x).
  destruct (present doc acc x) eqn:E; [assumption|].
  rewrite map_app. simpl.
  apply NoDup_app; [assumption | repeat constructor; intros [] |].
  intros k Hk [<- | []].
  apply present_In in Hk. congruence.
Qed.

Lemma fold_pushIfNew_NoDup (xs acc : list A) :
  NoDup (map (keyOf doc) acc) ->
  NoDup (map (keyOf doc) (fold_left (pushIfNew doc) xs acc)).
Proof.
  revert acc. induction xs as [|x xs IH]; intros acc H; simpl.
  - assumption.
  - apply IH. now apply pushIfNew_NoDup.
Qed.

(** The loop only appends: the result is the start followed by some of
    the pushed elements, none of which had its key in the start. *)
Lemma fold_pushIfNew_extras (xs acc : list A) :
  exists extras,
    fold_left (pushIfNew doc) xs acc = acc ++ extras
    /\ (forall e, In e extras -> In e xs /\ present doc acc e = false).
Proof.
  revert acc. induction xs as [|x xs IH]; intros acc; simpl.
  - exists []. split; [now rewrite app_nil_r | intros e []].
  - unfold pushIfNew at 2. fold (present doc acc x).
    destruct (present doc acc x) eqn:E.
    + destruct (IH acc) as [ex [Heq Hex]]. exists ex. split; [exact Heq|].
      intros e He. destruct (Hex e He). split; [now right | assumption].
    + destruct (IH (acc ++ [x])) as [ex [Heq Hex]].
      exists (x :: ex). split.
      * rewrite Heq, <- app_assoc. reflexivity.
      * intros e [<- | He]; [split; [now left | assumption]|].
        destruct (Hex e He) as [Hin Hp]. split; [now right|].
        unfold present in *. rewrite existsb_app in Hp.
        now apply orb_false_iff in Hp.
Qed.

Lemma present_app_l (acc ex : list A) (x : A) :
  present doc acc x = true -> present doc (acc ++ ex) x = true.
Proof.
  unfold present. rewrite existsb_app. intros ->. reflexivity.
Qed.

Lemma fold_pushIfNew_keeps (xs acc : list A) (x : A) :
  present doc acc x = true ->
  present doc (fold_left (pushIfNew doc) xs acc) x = true.
Proof.
  intros H. destruct (fold_pushIfNew_extras xs acc) as [ex [-> _]].
  now apply present_app_l.
Qed.

(** Every pushed element ends up present doc by key. *)
Lemma fold_pushIfNew_covers (xs acc : list A) (x : A) :
  In x xs -> present doc (fold_left (pushIfNew doc) xs acc) x = true.
Proof.
  revert acc. induction xs as [|y xs IH]; intros acc Hin;
    [destruct Hin|]. destruct Hin as [<- | H]; simpl.
  - apply fold_pushIfNew_keeps. unfold pushIfNew. fold (present doc acc y).
    destruct (present doc acc y) eqn:E; [assumption|].
    unfold present. rewrite existsb_app. simpl.
    replace (sameKey (doc y) (doc y)) with true;
      [now rewrite orb_true_r | symmetry; now apply sameKey_eq].
  - now apply IH.
Qed.
End PushFacts.

(** ** Town Hall filter *)

Section FilterFacts.
Context {A : Type} (doc : A -> Doc).

(** [combinedMatches] is the union of the exact and the nearby matches,
    one entry per key. *)
Lemma combinedMatches_union (T : Z) (corpus : list A) :
  (forall x, In x (exactMatches doc T corpus) ->
             In x (combinedMatches doc T corpus))
  /\ (forall x, In x (nearbyMatches doc T corpus) ->
                present doc (combinedMatches doc T corpus) x = true)
  /\ (forall x, In x (combinedMatches doc T corpus) ->
                In x (exactMatches doc T corpus)
                \/ In x (nearbyMatches doc T corpus)).
Proof.
  unfold combinedMatches.
  destruct (fold_pushIfNew_extras doc (nearbyMatches doc T corpus)
              (exactMatches doc T corpus)) as [ex [Heq Hex]].
  repeat split.
  - intros x Hx. rewrite Heq. apply in_or_app. now left.
  - intros x Hx. now apply fold_pushIfNew_covers.
  - intros x Hx. rewrite Heq in Hx. apply in_app_or in Hx.
    destruct Hx as [Hx | Hx]; [now left | right; now apply Hex].
Qed.

Lemma filterByTownHallLevel_In (thLevel : option Z) (corpus : list A)
    (x : A) :
  In x (filterByTownHallLevel doc thLevel corpus) -> In x corpus.
Proof.
  unfold filterByTownHallLevel.
  destruct thLevel as [T|]; [|trivial].
  destruct (T =? 0)%Z; [trivial|].
  destruct (5 <=? _)%nat.
  - unfold exactMatches. intros H. now apply filter_In in H.
  - destruct (5 <=? _)%nat; [|trivial].
    intros H. apply combinedMatches_union in H.
    unfold exactMatches, nearbyMatches in H.
    destruct H as [H | H]; now apply filter_In in H.
Qed.

Lemma filter_NoDup_keys (f : A -> bool) (l : list A) :
  NoDup (map (keyOf doc) l) -> NoDup (map (keyOf doc) (filter f l)).
Proof.
  induction l as [|x l IH]; simpl; intros H; [constructor|].
  inversion H as [|k ks Hnin Hnd]; subst.
  destruct (f x); simpl; [constructor|]; auto.
  intros Hin. apply Hnin. apply in_map_iff in Hin.
  destruct Hin as [y [Hk Hy]]. apply filter_In in Hy.
  apply in_map_iff. exists y. tauto.
Qed.

Lemma filterByTownHallLevel_NoDup (thLevel : option Z) (corpus : list A) :
  NoDup (map (keyOf doc) corpus) ->
  NoDup (map (keyOf doc) (filterByTownHallLevel doc thLevel corpus)).
Proof.
  intros H. unfold filterByTownHallLevel.
  destruct thLevel as [T|]; [|assumption].
  destruct (T =? 0)%Z; [assumption|].
  destruct (5 <=? _)%nat; [now apply filter_NoDup_keys|].
  destruct (5 <=? _)%nat; [|assumption].
  unfold combinedMatches. apply fold_pushIfNew_NoDup.
  now apply filter_NoDup_keys.
Qed.
End FilterFacts.


(** ** Vectors of one dimension *)

(** A sum whose terms are all numbers is a number. *)
Lemma fold_nanAdd_number (f : nat -> option Q) (g : nat -> Q)
    (indices : list nat) (acc : Q) :
  (forall i, In i indices -> f i = Some (g i)) ->
  fold_left (fun a i => nanAdd a (f i)) indices (Some acc)
  = Some (fold_left (fun a i => a + g i) indices acc).
Proof.
  revert acc. induction indices as [|i l IH]; intros acc H; simpl.
  - reflexivity.
  - rewrite (H i (or_introl eq_refl)). simpl. apply IH.
    intros j Hj. apply H. now right.
Qed.

(** A sum with a term that is NaN is NaN. *)
Lemma fold_nanAdd_nan (f : nat -> option Q) (indices : list nat) :
  fold_left (fun a i => nanAdd a (f i)) indices None = None.
Proof. induction indices as [|i l IH]; simpl; [reflexivity | exact IH]. Qed.

Lemma fold_nanAdd_nan_term (f : nat -> option Q) (indices : list nat)
    (acc : option Q) (i : nat) :
  In i indices -> f i = None ->
  fold_left (fun a i => nanAdd a (f i)) indices acc = None.
Proof.
  revert acc. induction indices as [|j l IH]; intros acc Hin Hf.
  - destruct Hin.
  - simpl. destruct Hin as [-> | Hin].
    + rewrite Hf. destruct acc; simpl; apply fold_nanAdd_nan.
    + now apply IH.
Qed.

Lemma nth_error_number (v : list Q) (i : nat) :
  (i < List.length v)%nat -> nth_error v i = Some (nth i v 0).
Proof. intros H. now apply nth_error_nth'. Qed.

(** When [vecB] is at least as long as [vecA] no read is out of range
    and the similarity is the number [cosineSimilarity] computes. *)
Lemma cosineOrNaN_number (sqrt : Q -> Q) (vecA vecB : list Q) :
  (List.length vecA <= List.length vecB)%nat ->
  cosineOrNaN sqrt vecA vecB = Some (cosineSimilarity sqrt vecA vecB).
Proof.
  intros Hlen. unfold cosineOrNaN, cosineSimilarity.
  rewrite (fold_nanAdd_number
             (fun i => nanMul (nth_error vecA i) (nth_error vecB i))
             (fun i => nth i vecA 0 * nth i vecB 0)).
  2:{ intros i Hi. apply in_seq in Hi.
      rewrite !nth_error_number by lia. reflexivity. }
  rewrite (fold_nanAdd_number
             (fun i => nanMul (nth_error vecA i) (nth_error vecA i))
             (fun i => nth i vecA 0 * nth i vecA 0)).
  2:{ intros i Hi. apply in_seq in Hi.
      rewrite !nth_error_number by lia. reflexivity. }
  rewrite (fold_nanAdd_number
             (fun i => nanMul (nth_error vecB i) (nth_error vecB i))
             (fun i => nth i vecB 0 * nth i vecB 0)).
  2:{ intros i Hi. apply in_seq in Hi.
      rewrite !nth_error_number by lia. reflexivity. }
  cbn [option_map isZero nanMul nanDiv].
  now destruct (Qeq_bool _ 0 || Qeq_bool _ 0).
Qed.

(** When [vecB] is shorter than [vecA] and [vecA] has a magnitude other
    than [0], the similarity is NaN. *)
Lemma cosineOrNaN_nan (sqrt : Q -> Q) (vecA vecB : list Q) :
  (List.length vecB < List.length vecA)%nat ->
  Qeq_bool (sqrt (squaredMagnitude vecA)) 0 = false ->
  cosineOrNaN sqrt vecA vecB = None.
Proof.
  intros Hlen Hself. unfold cosineOrNaN.
  rewrite (fold_nanAdd_number
             (fun i => nanMul (nth_error vecA i) (nth_error vecA i))
             (fun i => nth i vecA 0 * nth i vecA 0)).
  2:{ intros i Hi. apply in_seq in Hi.
      rewrite !nth_error_number by lia. reflexivity. }
  fold (squaredMagnitude vecA).
  assert (Hterm : forall (x : option Q),
            nanMul x (nth_error vecB (List.length vecB)) = None).
  { intros x.
    replace (nth_error vecB (List.length vecB)) with (@None Q)
      by (symmetry; apply nth_error_None; lia).
    now destruct x. }
  rewrite (fold_nanAdd_nan_term
             (fun i => nanMul (nth_error vecA i) (nth_error vecB i))
             _ _ (List.length vecB)).
  2:{ apply in_seq. lia. }
  2:{ apply Hterm. }
  rewrite (fold_nanAdd_nan_term
             (fun i => nanMul (nth_error vecB i) (nth_error vecB i))
             _ _ (List.length vecB)).
  2:{ apply in_seq. lia. }
  2:{ apply Hterm. }
  cbn [option_map isZero nanMul nanDiv].
  now rewrite Hself.
Qed.



(** ** Maximum Marginal Relevance *)

Section MMRFacts.
Variable sqrt : Q -> Q.
Variables (lambda : Q) (topK : nat).







(** The fuel [applyMMR] gives the loop, the length of [remaining], is
    enough: more fuel changes nothing, so [None] always stands for a
    pick of [undefined]. *)
Lemma mmrLoop_more_fuel (fuel k : nat) (selected remaining : list Doc) :
  (List.length remaining <= fuel)%nat ->
  mmrLoop sqrt (fuel + k) topK lambda selected remaining
  = mmrLoop sqrt fuel topK lambda selected remaining.
Proof.
  revert selected remaining.
  induction fuel as [|fuel IH]; intros selected remaining Hfuel.
  - destruct remaining; [|simpl in Hfuel; lia].
    destruct k; simpl; now rewrite andb_false_r.
  - cbn [Nat.add mmrLoop].
    destruct ((List.length selected <? topK)%nat
              && (0 <? List.length remaining)%nat); [|reflexivity].
    destruct (scanBest sqrt lambda selected remaining 0 None None)
      as [j|]; [|reflexivity].
    destruct (nth_error remaining j) as [best|] eqn:Enth; [|reflexivity].
    apply IH. pose proof (removeAt_length j _ _ Enth) as Hlen. lia.
Qed.



End MMRFacts.


(** *** The weight 1 *)




Section WeightOne.
Variable sqrt : Q -> Q.



End WeightOne.


(** When the similarity each candidate carries is its cosine to the query
    embedding, the top [K] by similarity is what [findSimilarDocuments]
    returns. *)
Lemma topKBySimilarity_findSimilarDocuments (sqrt : Q -> Q)
    (candidates : list Doc) (queryEmbedding : list Q) (K : nat) :
  Forall (fun d => similarity d
                   = Some (cosineSimilarity sqrt queryEmbedding (embedding d)))
         candidates ->
  findSimilarDocuments sqrt queryEmbedding candidates K
  = topKBySimilarity candidates K.
Proof.
  intros H. unfold findSimilarDocuments, topKBySimilarity.
  f_equal. f_equal. rewrite <- (map_id candidates) at 2.
  apply map_ext_in. intros d Hd. rewrite Forall_forall in H.
  specialize (H d Hd). unfold withSimilarity. rewrite <- H.
  now destruct d.
Qed.


(** With weight 7/10 the second pick is the document unlike the first,
    with weight 1 it is the next by similarity. *)
Example applyMMR_three_candidates :
  applyMMR sqrtQ threeCandidates [1; 0] 2 (7 # 10)
  = Some [ candidate "golem" [1; 0] (9 # 10);
           candidate "healer" [0; 1] (1 # 2) ]
  /\ applyMMR sqrtQ threeCandidates [1; 0] 2 1
     = Some [ candidate "golem" [1; 0] (9 # 10);
              candidate "giant" [1; 0] (8 # 10) ].
Proof. split; vm_compute; reflexivity. Qed.






(** ** Retrieval *)

Lemma refsOf_docs_from (l : list Doc) (n : nat) :
  map snd (combine (seq n (List.length l)) l) = l.
Proof.
  revert n. induction l as [|d l IH]; intros n; simpl; [reflexivity|].
  now rewrite IH.
Qed.

Lemma refsOf_docs (embeddings : list Doc) :
  map snd (refsOf embeddings) = embeddings.
Proof. apply refsOf_docs_from. Qed.




Lemma ensureSimilarity_has (sqrt : Q -> Q) (q : list Q) (d : Doc) :
  hasSimilarity (ensureSimilarity sqrt q d).
Proof.
  unfold ensureSimilarity, hasSimilarity.
  destruct (similarity d) eqn:E; simpl; congruence.
Qed.

Section RetrievalFacts.
Variable sqrt : Q -> Q.
Variable generateQueryEmbedding : string -> list Q.










End RetrievalFacts.


(** *** Arrays of references and arrays of values

    A function that only reads its documents gives the same answer on the
    references as on the objects behind them. *)

Section Naturality.
Context {A B : Type} (f : A -> B) (docA : A -> Doc) (docB : B -> Doc).
Hypothesis Hdoc : forall a, docB (f a) = docA a.

Lemma map_filter_doc (p : Doc -> bool) (l : list A) :
  map f (filter (fun a => p (docA a)) l)
  = filter (fun b => p (docB b)) (map f l).
Proof.
  induction l as [|a l IH]; simpl; [reflexivity|].
  rewrite Hdoc. destruct (p (docA a)); simpl; now rewrite IH.
Qed.

Lemma present_map (acc : list A) (x : A) :
  present docB (map f acc) (f x) = present docA acc x.
Proof.
  unfold present. induction acc as [|a acc IH]; simpl; [reflexivity|].
  now rewrite IH, !Hdoc.
Qed.

Lemma fold_pushIfNew_map (xs acc : list A) :
  map f (fold_left (pushIfNew docA) xs acc)
  = fold_left (pushIfNew docB) (map f xs) (map f acc).
Proof.
  revert acc. induction xs as [|x xs IH]; intros acc; simpl;
    [reflexivity|].
  rewrite IH. f_equal. unfold pushIfNew.
  fold (present docA acc x). fold (present docB (map f acc) (f x)).
  rewrite present_map. destruct (present docA acc x); [reflexivity|].
  now rewrite map_app.
Qed.

Lemma filterByTownHallLevel_map (thLevel : option Z) (l : list A) :
  map f (filterByTownHallLevel docA thLevel l)
  = filterByTownHallLevel docB thLevel (map f l).
Proof.
  unfold filterByTownHallLevel.
  destruct thLevel as [T|]; [|reflexivity].
  destruct (T =? 0)%Z; [reflexivity|].
  assert (He : map f (exactMatches docA T l) = exactMatches docB T (map f l))
    by apply map_filter_doc.
  assert (Hc : map f (combinedMatches docA T l)
               = combinedMatches docB T (map f l)).
  { unfold combinedMatches. rewrite fold_pushIfNew_map. f_equal.
    - apply map_filter_doc.
    - exact He. }
  rewrite <- He, <- Hc, !length_map.
  destruct (5 <=? _)%nat; [reflexivity|].
  destruct (5 <=? _)%nat; reflexivity.
Qed.

Lemma insertSorted_map (cmp : B -> B -> Q) (x : A) (l : list A) :
  map f (insertSorted (fun a b => cmp (f a) (f b)) x l)
  = insertSorted cmp (f x) (map f l).
Proof.
  induction l as [|y l IH]; simpl; [reflexivity|].
  destruct (Qle_bool (cmp (f x) (f y)) 0); simpl; [reflexivity|].
  now rewrite IH.
Qed.

Lemma stableSort_map (cmp : B -> B -> Q) (l : list A) :
  map f (stableSort (fun a b => cmp (f a) (f b)) l)
  = stableSort cmp (map f l).
Proof.
  induction l as [|x l IH]; simpl; [reflexivity|].
  now rewrite insertSorted_map, IH.
Qed.
End Naturality.

Lemma boost_fold (sqrt : Q -> Q) (q : list Q) (matches : Doc -> bool)
    (n : nat) (refs : list (nat * Doc)) (filtered : list Doc) :
  fst (boost sqrt q matches n refs filtered)
  = fold_left (pushIfNew (fun d : Doc => d))
      (boostedTop sqrt q matches n (map snd refs)) filtered.
Proof.
  unfold boost, boostedTop, Ref.
  rewrite <- (map_filter_doc snd snd (fun d : Doc => d)) by reflexivity.
  destruct (filter (fun r : nat * Doc => matches (snd r)) refs)
    as [|r rs] eqn:E.
  - simpl. destruct n; reflexivity.
  - cbn [List.length Nat.ltb Nat.leb fst]. f_equal.
    rewrite <- firstn_map.
    rewrite (stableSort_map snd bySimilarity).
    now rewrite !map_map.
Qed.

Lemma boostedTop_fresh (sqrt : Q -> Q) (q : list Q) (matches : Doc -> bool)
    (n : nat) (docs : list Doc) :
  Forall (fun d => similarity d = None) docs ->
  boostedTop sqrt q matches n docs
  = findSimilarDocuments sqrt q (filter matches docs) n.
Proof.
  intros H. unfold boostedTop, findSimilarDocuments. do 2 f_equal.
  apply map_ext_in. intros d Hd. apply filter_In in Hd. destruct Hd as [Hd _].
  rewrite Forall_forall in H. unfold ensureSimilarity. now rewrite (H d Hd).
Qed.

Section BoostFacts.
Variable sqrt : Q -> Q.
Variable generateQueryEmbedding : string -> list Q.

Lemma tiered_refs (qa : QueryAnalysis) (corpus : list Doc) :
  map snd
    (filterByTownHallLevel snd
       (orNumber (townHallLevel (params qa)) (targetTH (params qa)))
       (refsOf corpus))
  = tiered qa corpus.
Proof.
  unfold tiered.
  rewrite (filterByTownHallLevel_map snd snd (fun d : Doc => d))
    by reflexivity.
  now rewrite refsOf_docs.
Qed.

Lemma retrieveCandidates_upgrade (query : string) (qa : QueryAnalysis)
    (corpus : list Doc) (it : string) :
  intent qa = upgrade_priority ->
  itemType (params qa) = Some it -> it <> EmptyString ->
  fst (retrieveCandidates sqrt generateQueryEmbedding query qa corpus)
  = fold_left (pushIfNew (fun d : Doc => d))
      (boostedTop sqrt (generateQueryEmbedding query) (matchesItemType it)
         3 (tiered qa corpus))
      (combinedResults sqrt generateQueryEmbedding query
         (tiered qa corpus)).
Proof.
  intros Hi Hit Hne. unfold retrieveCandidates.
  rewrite Hi, Hit. simpl Intent_eqb. simpl truthy.
  apply String.eqb_neq in Hne. rewrite Hne. simpl.
  destruct (boost _ _ _ _ _ _) as [f t] eqn:E. simpl.
  replace f with (fst (f, t)) by reflexivity.
  rewrite <- E, boost_fold, tiered_refs. reflexivity.
Qed.

Lemma retrieveCandidates_attack (query : string) (qa : QueryAnalysis)
    (corpus : list Doc) (ft : string) :
  intent qa = attack_strategy ->
  focusTroop (params qa) = Some ft -> ft <> EmptyString ->
  fst (retrieveCandidates sqrt generateQueryEmbedding query qa corpus)
  = fold_left (pushIfNew (fun d : Doc => d))
      (boostedTop sqrt (generateQueryEmbedding query)
         (matchesFocusTroop ft) 2 (tiered qa corpus))
      (combinedResults sqrt generateQueryEmbedding query
         (tiered qa corpus)).
Proof.
  intros Hi Hft Hne. unfold retrieveCandidates.
  rewrite Hi, Hft. simpl Intent_eqb. simpl truthy.
  apply String.eqb_neq in Hne. rewrite Hne. simpl.
  destruct (boost _ _ _ _ _ _) as [f t] eqn:E. simpl.
  replace f with (fst (f, t)) by reflexivity.
  rewrite <- E, boost_fold, tiered_refs. reflexivity.
Qed.
End BoostFacts.

(** The candidate list of the two intent branches, on any corpus: the
    hybrid result followed by those of [boostedTop] not yet present. *)
Lemma retrieveCandidates_boosted (sqrt : Q -> Q)
    (generateQueryEmbedding : string -> list Q) (query : string)
    (qa : QueryAnalysis) (corpus : list Doc) (matches : Doc -> bool)
    (n : nat) :
  (intent qa = upgrade_priority
   /\ exists it, itemType (params qa) = Some it /\ it <> EmptyString
                 /\ matches = matchesItemType it /\ n = 3%nat)
  \/ (intent qa = attack_strategy
      /\ exists ft, focusTroop (params qa) = Some ft /\ ft <> EmptyString
                    /\ matches = matchesFocusTroop ft /\ n = 2%nat) ->
  fst (retrieveCandidates sqrt generateQueryEmbedding query qa corpus)
  = fold_left (pushIfNew (fun d : Doc => d))
      (boostedTop sqrt (generateQueryEmbedding query) matches n
         (tiered qa corpus))
      (combinedResults sqrt generateQueryEmbedding query (tiered qa corpus)).
Proof.
  intros [[Hi [it [Hit [Hne [-> ->]]]]] | [Hi [ft [Hft [Hne [-> ->]]]]]].
  - now apply retrieveCandidates_upgrade.
  - now apply retrieveCandidates_attack.
Qed.

(** C3, as the code has it, on a corpus as it is loaded (no document
    carries a similarity yet). When the intent is [upgrade_priority] and
    [params.itemType] is set, the candidate list is the hybrid result
    followed by those of the top 3 documents, ranked by cosine similarity
    to the query embedding, among the documents of the tier-filtered
    corpus (the output of [filterByTownHallLevel], which is the whole
    corpus only when no tier applies) whose [metadata.type] equals the
    item type or whose lower-cased content contains it, that are not yet
    present by [(id, category)]; every one of those 3 is present by key
    afterwards. For [attack_strategy] with [params.focusTroop] set the
    same holds with the top 2 documents whose lower-cased [metadata.name]
    or lower-cased content contains the troop name. *)
Theorem retrieveCandidates_intent_boost :
  forall (sqrt : Q -> Q) (generateQueryEmbedding : string -> list Q)
         (query : string) (qa : QueryAnalysis) (corpus : list Doc)
         (matches : Doc -> bool) (n : nat),
    (intent qa = upgrade_priority
     /\ exists it, itemType (params qa) = Some it /\ it <> EmptyString
                   /\ matches = matchesItemType it /\ n = 3%nat)
    \/ (intent qa = attack_strategy
        /\ exists ft, focusTroop (params qa) = Some ft /\ ft <> EmptyString
                      /\ matches = matchesFocusTroop ft /\ n = 2%nat) ->
    Forall (fun d => similarity d = None) corpus ->
    let q := generateQueryEmbedding query in
    let base :=
      combinedResults sqrt generateQueryEmbedding query (tiered qa corpus) in
    let top :=
      findSimilarDocuments sqrt q (filter matches (tiered qa corpus)) n in
    let cands :=
      fst (retrieveCandidates sqrt generateQueryEmbedding query qa corpus) in
    exists extras,
      cands = base ++ extras
      /\ (forall e, In e extras ->
                    In e top /\ present (fun d : Doc => d) base e = false)
      /\ (forall d, In d top -> present (fun d : Doc => d) cands d = true).
Proof.
  intros sqrt embed query qa corpus matches n H Hfresh q base top cands.
  assert (Htop : boostedTop sqrt q matches n (tiered qa corpus) = top).
  { apply boostedTop_fresh.
    apply Forall_forall. intros d Hd.
    apply (filterByTownHallLevel_In (fun d : Doc => d)) in Hd.
    rewrite Forall_forall in Hfresh. now apply Hfresh. }
  assert (Hfold : cands = fold_left (pushIfNew (fun d : Doc => d)) top base).
  { subst cands. rewrite <- Htop.
    now apply retrieveCandidates_boosted. }
  destruct (fold_pushIfNew_extras (fun d : Doc => d) top base)
    as [extras [Heq Hex]].
  exists extras. split; [now rewrite Hfold|]. split; [exact Hex|].
  intros d Hd. rewrite Hfold. now apply fold_pushIfNew_covers.
Qed.

(** The two branches at work. Both corpora hold seven documents that
    fill the hybrid result and an eighth that only the intent branch
    finds: the barbarian by its type, the dragon by its name. *)
Example retrieveCandidates_merges_eighth_document :
  map key (combinedResults sqrtQ embedTwo armyQuery
             (tiered (analyzeQuery armyQuery) eightCorpus))
  = map key (map defenseDoc
               [ "cannon"; "mortar"; "tesla"; "bomb tower"; "air sweeper";
                 "inferno"; "scattershot" ])
  /\ map key (fst (retrieveCandidates sqrtQ embedTwo armyQuery
                     (analyzeQuery armyQuery) eightCorpus))
     = map key eightCorpus
  /\ map key (combinedResults sqrtQ embedUnit dragonQuery
                (tiered (analyzeQuery dragonQuery) attackCorpus))
     = map key (firstn 7 attackCorpus)
  /\ map key (fst (retrieveCandidates sqrtQ embedUnit dragonQuery
                     (analyzeQuery dragonQuery) attackCorpus))
     = map key attackCorpus.
Proof. repeat split; vm_compute; reflexivity. Qed.

Lemma retrieveCandidates_intent_boost_witness :
  (let qa := analyzeQuery armyQuery in
   let base :=
     combinedResults sqrtQ embedTwo armyQuery (tiered qa eightCorpus) in
   let top :=
     findSimilarDocuments sqrtQ (embedTwo armyQuery)
       (filter (matchesItemType "troop") (tiered qa eightCorpus)) 3 in
   let cands :=
     fst (retrieveCandidates sqrtQ embedTwo armyQuery qa eightCorpus) in
   intent qa = upgrade_priority
   /\ itemType (params qa) = Some "troop"
   /\ Forall (fun d => similarity d = None) eightCorpus
   /\ exists extras,
        cands = base ++ extras
        /\ (forall e, In e extras ->
              In e top /\ present (fun d : Doc => d) base e = false)
        /\ (forall d, In d top -> present (fun d : Doc => d) cands d = true))
  /\ (let qa := analyzeQuery dragonQuery in
      let base :=
        combinedResults sqrtQ embedUnit dragonQuery (tiered qa attackCorpus) in
      let top :=
        findSimilarDocuments sqrtQ (embedUnit dragonQuery)
          (filter (matchesFocusTroop "dragon") (tiered qa attackCorpus)) 2 in
      let cands :=
        fst (retrieveCandidates sqrtQ embedUnit dragonQuery qa attackCorpus) in
      intent qa = attack_strategy
      /\ focusTroop (params qa) = Some "dragon"
      /\ Forall (fun d => similarity d = None) attackCorpus
      /\ exists extras,
           cands = base ++ extras
           /\ (forall e, In e extras ->
                 In e top /\ present (fun d : Doc => d) base e = false)
           /\ (forall d, In d top ->
                 present (fun d : Doc => d) cands d = true)).
Proof.
  split.
  - intros qa base top cands.
    assert (Hi : intent qa = upgrade_priority) by (vm_compute; reflexivity).
    assert (Hit : itemType (params qa) = Some "troop")
      by (vm_compute; reflexivity).
    assert (Hfresh : Forall (fun d => similarity d = None) eightCorpus)
      by (repeat constructor).
    split; [exact Hi|]. split; [exact Hit|]. split; [exact Hfresh|].
    apply (retrieveCandidates_intent_boost sqrtQ embedTwo armyQuery qa
             eightCorpus (matchesItemType "troop") 3); [|exact Hfresh].
    left. split; [exact Hi|]. exists "troop".
    split; [exact Hit|]. split; [discriminate|]. split; reflexivity.
  - intros qa base top cands.
    assert (Hi : intent qa = attack_strategy) by (vm_compute; reflexivity).
    assert (Hft : focusTroop (params qa) = Some "dragon")
      by (vm_compute; reflexivity).
    assert (Hfresh : Forall (fun d => similarity d = None) attackCorpus)
      by (repeat constructor).
    split; [exact Hi|]. split; [exact Hft|]. split; [exact Hfresh|].
    apply (retrieveCandidates_intent_boost sqrtQ embedUnit dragonQuery qa
             attackCorpus (matchesFocusTroop "dragon") 2); [|exact Hfresh].
    right. split; [exact Hi|]. exists "dragon".
    split; [exact Hft|]. split; [discriminate|]. split; reflexivity.
Defined.

(** C3, as stated, fails: asked about troops at Town Hall 9, the best
    match of the unfiltered corpus, the barbarian, is not merged in,
    because the branch reads the tier-filtered corpus. *)
Lemma boost_misses_documents_outside_the_tier :
  let qa := analyzeQuery tierQuery in
  intent qa = upgrade_priority
  /\ itemType (params qa) = Some "troop"
  /\ exists d,
       In d (findSimilarDocuments sqrtQ (embedUnit tierQuery)
               (filter (matchesItemType "troop") tierCorpus) 3)
       /\ present (fun d : Doc => d)
            (fst (retrieveCandidates sqrtQ embedUnit tierQuery qa tierCorpus))
            d = false.
Proof.
  split; [vm_compute; reflexivity|]. split; [vm_compute; reflexivity|].
  exists (withSimilarity
            (corpusDoc "barbarian" "basic_info" "troop"
               "Barbarian. A melee fighter of the barracks." [1; 0])
            (cosineSimilarity sqrtQ (embedUnit tierQuery) [1; 0])).
  split; [vm_compute; now left | vm_compute; reflexivity].
Qed.

(** The attack branch does not match as the upgrade branch does. No
    document of the corpus has the type "dragon" or the word in its
    content, so a branch that matched on [metadata.type] or content would
    merge nothing; the code matches on [metadata.name] and merges the
    dragon, which the hybrid result does not hold. *)
Lemma boost_matches_troop_by_name :
  let qa := analyzeQuery dragonQuery in
  let base :=
    combinedResults sqrtQ embedUnit dragonQuery (tiered qa attackCorpus) in
  let cands :=
    fst (retrieveCandidates sqrtQ embedUnit dragonQuery qa attackCorpus) in
  intent qa = attack_strategy
  /\ focusTroop (params qa) = Some "dragon"
  /\ filter (matchesItemType "dragon") attackCorpus = []
  /\ hasKey ("dragon", "troops") base = false
  /\ hasKey ("dragon", "troops") cands = true.
Proof. repeat split; vm_compute; reflexivity. Qed.

(** C3, as stated, fails in both branches: the documents are drawn from
    the tier-filtered corpus, not from the unfiltered one, and the attack
    branch matches on the name of a document, not on its type. *)
Lemma intent_boost_differs_from_spec :
  (let qa := analyzeQuery tierQuery in
   intent qa = upgrade_priority
   /\ itemType (params qa) = Some "troop"
   /\ exists d,
        In d (findSimilarDocuments sqrtQ (embedUnit tierQuery)
                (filter (matchesItemType "troop") tierCorpus) 3)
        /\ present (fun d : Doc => d)
             (fst (retrieveCandidates sqrtQ embedUnit tierQuery qa
                     tierCorpus))
             d = false)
  /\ (let qa := analyzeQuery dragonQuery in
      let base :=
        combinedResults sqrtQ embedUnit dragonQuery (tiered qa attackCorpus) in
      let cands :=
        fst (retrieveCandidates sqrtQ embedUnit dragonQuery qa attackCorpus) in
      intent qa = attack_strategy
      /\ focusTroop (params qa) = Some "dragon"
      /\ filter (matchesItemType "dragon") attackCorpus = []
      /\ hasKey ("dragon", "troops") base = false
      /\ hasKey ("dragon", "troops") cands = true).
Proof.
  split; [exact boost_misses_documents_outside_the_tier
         | exact boost_matches_troop_by_name].
Qed.

(** ** Query analysis *)

Lemma firstRule_None (rules : list (bool * string)) :
  firstRule rules = None <-> existsb fst rules = false.
Proof.
  induction rules as [|[t v] rules IH]; simpl; [tauto|].
  destruct t; simpl; [split; discriminate | exact IH].
Qed.

Lemma scanTroops_None (lowerQuery : string) (ts : list string) :
  scanTroops lowerQuery ts = None <-> anyOf lowerQuery ts = false.
Proof.
  unfold anyOf. induction ts as [|t ts IH]; simpl; [tauto|].
  destruct (includes lowerQuery t); simpl; [split; discriminate | exact IH].
Qed.

Ltac rule_signals :=
  intros; rewrite firstRule_None; unfold anyOf; simpl;
  match goal with
  | |- ?l = false <-> ?r = false =>
      replace l with r by btauto; reflexivity
  end.

Lemma itemTypeOf_None (lq : string) :
  itemTypeOf lq = None <-> anyOf lq itemTypeSignals = false.
Proof. unfold itemTypeOf. rule_signals. Qed.

Lemma focusOf_None (lq : string) :
  focusOf lq = None <-> anyOf lq focusSignals = false.
Proof. unfold focusOf. rule_signals. Qed.

Lemma attackTypeOf_None (lq : string) :
  attackTypeOf lq = None <-> anyOf lq attackTypeSignals = false.
Proof. unfold attackTypeOf. rule_signals. Qed.

Lemma purposeOf_None (lq : string) :
  purposeOf lq = None <-> anyOf lq purposeSignals = false.
Proof. unfold purposeOf. rule_signals. Qed.

Lemma baseTypeOf_None (lq : string) :
  baseTypeOf lq = None <-> anyOf lq baseTypeSignals = false.
Proof. unfold baseTypeOf. rule_signals. Qed.

Lemma resourceTypeOf_None (lq : string) :
  resourceTypeOf lq = None <-> anyOf lq resourceTypeSignals = false.
Proof. unfold resourceTypeOf. rule_signals. Qed.

Lemma goalOf_None (lq : string) :
  goalOf lq = None <-> anyOf lq goalSignals = false.
Proof. unfold goalOf. rule_signals. Qed.

(** C7. [analyzeQuery] is defined on every string. The intent is the one
    of the first rule that matches the lower-cased text, in the order
    upgrade priority, attack strategy, base design, resource management,
    and [general] when none matches. The Town Hall level is absent when
    the text has no level pattern, [targetTH] is never set, and every
    other parameter is absent unless its intent was chosen and one of its
    signal words occurs. *)
Theorem analyzeQuery_cascade_and_absent_params :
  forall query : string,
    let lq := toLowerCase query in
    let r := analyzeQuery query in
    intent r = cascade lq
    /\ (thMatch lq = None <-> townHallLevel (params r) = None)
    /\ targetTH (params r) = None
    /\ absentWithoutSignal r lq itemType upgrade_priority itemTypeSignals
    /\ absentWithoutSignal r lq focus upgrade_priority focusSignals
    /\ absentWithoutSignal r lq attackType attack_strategy attackTypeSignals
    /\ absentWithoutSignal r lq focusTroop attack_strategy troops
    /\ absentWithoutSignal r lq purpose attack_strategy purposeSignals
    /\ absentWithoutSignal r lq baseType base_design baseTypeSignals
    /\ absentWithoutSignal r lq resourceType resource_management
         resourceTypeSignals
    /\ absentWithoutSignal r lq goal resource_management goalSignals.
Proof.
  intros query lq r. subst r. unfold analyzeQuery, cascade.
  fold lq. unfold absentWithoutSignal.
  pose proof (itemTypeOf_None lq). pose proof (focusOf_None lq).
  pose proof (attackTypeOf_None lq). pose proof (scanTroops_None lq troops).
  pose proof (purposeOf_None lq). pose proof (baseTypeOf_None lq).
  pose proof (resourceTypeOf_None lq). pose proof (goalOf_None lq).
  assert (Hth : thMatch lq = None
                <-> match thMatch lq with
                    | Some d => Some (parseInt d)
                    | None => None
                    end = None)
    by (destruct (thMatch lq); split; congruence).
  destruct (isUpgradeQuery lq); [|destruct (isAttackQuery lq);
    [|destruct (isBaseQuery lq); [|destruct (isResourceQuery lq)]]];
    simpl; repeat split; try exact Hth; try tauto;
    try (intros _; left; discriminate);
    try (intros _; now left);
    try (intros [Hc | Hc]; [congruence | tauto]);
    try (intros Hc; right; tauto).
Qed.

(** *** The focus troop *)

Lemma scanTroops_first (lowerQuery : string) (ts : list string) :
  match scanTroops lowerQuery ts with
  | Some t =>
      exists before after,
        ts = before ++ t :: after
        /\ includes lowerQuery t = true
        /\ forall t', In t' before -> includes lowerQuery t' = false
  | None => forall t', In t' ts -> includes lowerQuery t' = false
  end.
Proof.
  induction ts as [|t ts IH]; simpl.
  - intros t' [].
  - destruct (includes lowerQuery t) eqn:E.
    + exists [], ts. repeat split; [assumption | intros t' []].
    + destruct (scanTroops lowerQuery ts) as [u|].
      * destruct IH as [before [after [-> [Hu Hb]]]].
        exists (t :: before), after. repeat split; [assumption|].
        intros t' [<- | Ht']; [assumption | now apply Hb].
      * intros t' [<- | Ht']; [assumption | now apply IH].
Qed.

(** C8, as the code has it. When [analyzeQuery] assigns the attack
    strategy intent, [params.focusTroop] is the first name of the fixed
    list [troops], in the order of the list, that occurs in the
    lower-cased query; it is absent when no name of the list occurs. The
    position of the names in the query plays no part. *)
Theorem focusTroop_first_in_list :
  forall query : string,
    intent (analyzeQuery query) = attack_strategy ->
    match focusTroop (params (analyzeQuery query)) with
    | Some t =>
        exists before after,
          troops = before ++ t :: after
          /\ includes (toLowerCase query) t = true
          /\ forall t', In t' before ->
                        includes (toLowerCase query) t' = false
    | None =>
        forall t', In t' troops -> includes (toLowerCase query) t' = false
    end.
Proof.
  intros query. unfold analyzeQuery.
  destruct (isUpgradeQuery _); [discriminate|].
  destruct (isAttackQuery _).
  - intros _. cbn [params focusTroop]. apply scanTroops_first.
  - destruct (isBaseQuery _); [discriminate|].
    destruct (isResourceQuery _); discriminate.
Qed.

Lemma focusTroop_first_in_list_witness :
  intent (analyzeQuery twoUnitsQuery) = attack_strategy
  /\ match focusTroop (params (analyzeQuery twoUnitsQuery)) with
     | Some t =>
         exists before after,
           troops = before ++ t :: after
           /\ includes (toLowerCase twoUnitsQuery) t = true
           /\ forall t', In t' before ->
                         includes (toLowerCase twoUnitsQuery) t' = false
     | None =>
         forall t', In t' troops ->
                    includes (toLowerCase twoUnitsQuery) t' = false
     end.
Proof.
  assert (H : intent (analyzeQuery twoUnitsQuery) = attack_strategy)
    by (vm_compute; reflexivity).
  split; [exact H|].
  exact (focusTroop_first_in_list twoUnitsQuery H).
Defined.

(** "dragon" is at position 21 and "archer" at 32; the troop chosen is
    "archer", which comes first in the list. *)
Lemma focusTroop_not_earliest_in_text :
  ~ focusTroop_earliest_in_text twoUnitsQuery.
Proof.
  intros H.
  specialize (H "archer" "dragon" 32%nat 21%nat).
  assert (Hle : (32 <= 21)%nat).
  { apply H; try (vm_compute; reflexivity).
    unfold troops. simpl. tauto. }
  lia.
Qed.

(** ** The empty corpus *)

Lemma prefix_nil (s : string) : String.prefix EmptyString s = true.
Proof. destruct s; reflexivity. Qed.

Lemma prefix_app (t s : string) : String.prefix t (t ++ s) = true.
Proof.
  induction t as [|a t IH]; simpl; [apply prefix_nil|].
  destruct (ascii_dec a a); [exact IH | congruence].
Qed.

Lemma prefix_app_l (t a b : string) :
  String.prefix t a = true -> String.prefix t (a ++ b) = true.
Proof.
  revert a. induction t as [|c t IH]; intros a H; [apply prefix_nil|].
  destruct a as [|d a]; simpl in *; [discriminate|].
  destruct (ascii_dec c d); [now apply IH | discriminate].
Qed.

Lemma includes_prefix (s t : string) :
  String.prefix t s = true -> includes s t = true.
Proof. intros H. destruct s; cbn [includes]; now rewrite H. Qed.

Lemma includes_app_l (a b t : string) :
  includes a t = true -> includes (a ++ b) t = true.
Proof.
  induction a as [|c a IH]; intros H.
  - simpl in H. rewrite orb_false_r in H. destruct t; [|discriminate].
    apply includes_prefix, prefix_nil.
  - cbn [includes] in H. apply orb_true_iff in H.
    change (String c a ++ b)%string with (String c (a ++ b)).
    cbn [includes]. apply orb_true_iff. destruct H as [H | H].
    + left. apply (prefix_app_l t (String c a) b H).
    + right. now apply IH.
Qed.

Lemma includes_app_r (a b t : string) :
  includes b t = true -> includes (a ++ b) t = true.
Proof.
  intros H. induction a as [|c a IH]; [exact H|].
  change (String c a ++ b)%string with (String c (a ++ b)).
  cbn [includes]. rewrite IH. apply orb_true_r.
Qed.

Lemma includes_self_app (t s : string) : includes (t ++ s) t = true.
Proof. apply includes_prefix, prefix_app. Qed.

Lemma includes_self (t : string) : includes t t = true.
Proof.
  apply includes_prefix. induction t as [|a t IH]; simpl; [reflexivity|].
  destruct (ascii_dec a a); [exact IH | congruence].
Qed.

(** Every part of a joined text occurs in it. *)
Lemma includes_join (sep : string) (parts : list string) (p : string) :
  In p parts -> includes (join sep parts) p = true.
Proof.
  induction parts as [|x parts IH]; intros H; [destruct H|].
  destruct H as [<- | H].
  - destruct parts as [|y parts]; simpl join.
    + apply includes_self.
    + apply includes_self_app.
  - destruct parts as [|y parts]; [destruct H|].
    change (join sep (x :: y :: parts))
      with (x ++ sep ++ join sep (y :: parts))%string.
    apply includes_app_r, includes_app_r. now apply IH.
Qed.













(** ** The corpus across a call *)

Lemma assignSimilarity_nil (sqrt : Q -> Q) (q : list Q)
    (embeddings : list Doc) :
  assignSimilarity sqrt q [] embeddings = embeddings.
Proof.
  unfold assignSimilarity. simpl.
  rewrite <- (refsOf_docs embeddings) at 2. reflexivity.
Qed.

(** X24. Outside the two intent branches, that is when the analysis sets
    neither [itemType] nor [focusTroop], a call leaves the corpus exactly
    as it was. *)
Lemma retrieveContext_frame_without_boost (sqrt : Q -> Q)
    (generateQueryEmbedding : string -> list Q) (query : string)
    (qa : QueryAnalysis) (corpus : list Doc) :
  itemType (params qa) = None ->
  focusTroop (params qa) = None ->
  snd (retrieveContext sqrt generateQueryEmbedding query qa corpus) = corpus.
Proof.
  intros Hi Hf. unfold retrieveContext, retrieveCandidates.
  rewrite Hi, Hf. simpl truthy. rewrite !andb_false_r. simpl.
  apply assignSimilarity_nil.
Qed.

(** C2 fails on the code. The query asks about troops, so the upgrade
    branch filters the corpus array, which keeps the corpus objects, and
    assigns [similarity] on the barbarian record: after the call the
    corpus differs from the one passed in. *)
Theorem retrieveContext_writes_similarity_into_corpus :
  let corpus' :=
    snd (retrieveContext sqrtQ embedUnit troopQuery (analyzeQuery troopQuery)
           smallCorpus) in
  map similarity smallCorpus = [None; None]
  /\ map similarity corpus' = [None; Some 0]
  /\ corpus' <> smallCorpus.
Proof.
  split; [reflexivity|]. split; [vm_compute; reflexivity|].
  vm_compute. discriminate.
Qed.

(** A later call sees the earlier one. On the fresh corpus the second
    query retrieves five defenses; after the first call the barbarian
    record carries the similarity to the first query, is taken for a
    perfect match and is retrieved. *)
Theorem retrieveContext_later_call_sees_earlier_call :
  let corpus' :=
    snd (retrieveContext sqrtQ embedTwo troopQuery (analyzeQuery troopQuery)
           eightCorpus) in
  let fresh :=
    fst (retrieveContext sqrtQ embedTwo laterQuery (analyzeQuery laterQuery)
           eightCorpus) in
  let later :=
    fst (retrieveContext sqrtQ embedTwo laterQuery (analyzeQuery laterQuery)
           corpus') in
  option_map (hasKey ("barbarian", "basic_info")) fresh = Some false
  /\ option_map (hasKey ("barbarian", "basic_info")) later = Some true.
Proof. split; vm_compute; reflexivity. Qed.


(** The run of the witness: eight candidates, of which five are kept. *)
Example retrieveContext_eight_documents :
  option_map (map key)
    (fst (retrieveContext sqrtQ embedTwo troopQuery
            (analyzeQuery troopQuery) eightCorpus))
  = Some [ ("barbarian", "basic_info"); ("cannon", "basic_info");
           ("mortar", "basic_info"); ("tesla", "basic_info");
           ("bomb tower", "basic_info") ].
Proof. vm_compute. reflexivity. Qed.

(* ================================================================== *)
(** * Further properties of the code *)

(** ** Cosine similarity *)

Lemma fold_sum_ext (f g : nat -> Q) (l : list nat) (x y : Q) :
  x == y -> (forall i, f i == g i) ->
  fold_left (fun acc i => acc + f i) l x
  == fold_left (fun acc i => acc + g i) l y.
Proof.
  revert x y. induction l as [|i l IH]; intros x y Hxy Hfg; simpl.
  - exact Hxy.
  - apply IH; [|exact Hfg]. now rewrite Hxy, (Hfg i).
Qed.

Lemma fold_sum_zero (f : nat -> Q) (l : list nat) (x : Q) :
  (forall i, f i == 0) ->
  fold_left (fun acc i => acc + f i) l x == x.
Proof.
  intros Hf. revert x. induction l as [|i l IH]; intros x; simpl.
  - reflexivity.
  - rewrite IH, (Hf i). ring.
Qed.

Lemma nth_zero_vector (v : list Q) (i : nat) :
  Forall (fun x => x == 0) v -> nth i v 0 == 0.
Proof.
  intros H. revert i. induction H as [|x v Hx Hv IH]; intros [|i]; simpl;
    try reflexivity; auto.
Qed.

Lemma Qeq_bool_false (x y : Q) : ~ x == y -> Qeq_bool x y = false.
Proof.
  intros H. destruct (Qeq_bool x y) eqn:E; [|reflexivity].
  apply Qeq_bool_iff in E. contradiction.
Qed.

(** X1. On vectors of the same length the cosine similarity is symmetric,
    whatever [Math.sqrt] is. *)
Theorem cosineSimilarity_symmetric :
  forall (sqrt : Q -> Q) (vecA vecB : list Q),
    List.length vecA = List.length vecB ->
    cosineSimilarity sqrt vecA vecB == cosineSimilarity sqrt vecB vecA.
Proof.
  intros sqrt a b Hlen. unfold cosineSimilarity. rewrite <- Hlen.
  set (idx := seq 0 (List.length a)).
  set (MA := fold_left (fun acc i => acc + nth i a 0 * nth i a 0) idx 0).
  set (MB := fold_left (fun acc i => acc + nth i b 0 * nth i b 0) idx 0).
  assert (HD : fold_left (fun acc i => acc + nth i a 0 * nth i b 0) idx 0
               == fold_left (fun acc i => acc + nth i b 0 * nth i a 0) idx 0).
  { apply (fold_sum_ext (fun i => nth i a 0 * nth i b 0)
             (fun i => nth i b 0 * nth i a 0)); [reflexivity|].
    intros i. apply Qmult_comm. }
  rewrite (orb_comm (Qeq_bool (sqrt MB) 0)).
  destruct (Qeq_bool (sqrt MA) 0 || Qeq_bool (sqrt MB) 0); [reflexivity|].
  rewrite HD, (Qmult_comm (sqrt MA)). reflexivity.
Qed.

Lemma cosineSimilarity_symmetric_witness :
  List.length [3; 4] = List.length [1; 0]
  /\ cosineSimilarity sqrtQ [3; 4] [1; 0]
     == cosineSimilarity sqrtQ [1; 0] [3; 4].
Proof.
  split; [reflexivity|].
  exact (cosineSimilarity_symmetric sqrtQ [3; 4] [1; 0] eq_refl).
Defined.

(** X2. When the root of zero is zero, the similarity of a zero vector
    with any vector of any length is [0], and so is the similarity of a
    vector with a zero vector at least as long: no division takes place.
    A vector of magnitude other than zero has no similarity with a
    shorter zero vector: the result is NaN. *)
Theorem cosineSimilarity_zero_vector :
  forall (sqrt : Q -> Q) (zero v : list Q),
    (forall x, x == 0 -> sqrt x == 0) ->
    Forall (fun x => x == 0) zero ->
    cosineOrNaN sqrt zero v = Some 0
    /\ ((List.length v <= List.length zero)%nat ->
        cosineOrNaN sqrt v zero = Some 0)
    /\ ((List.length zero < List.length v)%nat ->
        ~ sqrt (squaredMagnitude v) == 0 ->
        cosineOrNaN sqrt v zero = None).
Proof.
  intros sqrt z v Hsqrt Hz.
  assert (Hsq : forall l,
             fold_left (fun acc i => acc + nth i z 0 * nth i z 0) l 0 == 0).
  { intros l. apply (fold_sum_zero (fun i => nth i z 0 * nth i z 0)).
    intros i. rewrite (nth_zero_vector z i Hz). ring. }
  split; [|split].
  - unfold cosineOrNaN.
    rewrite (fold_nanAdd_number
               (fun i => nanMul (nth_error z i) (nth_error z i))
               (fun i => nth i z 0 * nth i z 0)).
    2:{ intros i Hi. apply in_seq in Hi.
        rewrite !nth_error_number by lia. reflexivity. }
    pose proof (Hsqrt _ (Hsq (seq 0 (List.length z)))) as H0.
    apply Qeq_bool_iff in H0. cbn [option_map isZero]. now rewrite H0.
  - intros Hlen. rewrite (cosineOrNaN_number sqrt v z Hlen).
    unfold cosineSimilarity.
    pose proof (Hsqrt _ (Hsq (seq 0 (List.length v)))) as H0.
    apply Qeq_bool_iff in H0. rewrite H0. now rewrite orb_true_r.
  - intros Hlen Hnz. apply cosineOrNaN_nan; [exact Hlen|].
    destruct (Qeq_bool (sqrt (squaredMagnitude v)) 0) eqn:E; [|reflexivity].
    apply Qeq_bool_iff in E. contradiction.
Qed.

Lemma sqrtQ_zero (x : Q) : x == 0 -> sqrtQ x == 0.
Proof.
  unfold Qeq, sqrtQ. simpl. intros H.
  rewrite Z.mul_1_r in H. rewrite H. reflexivity.
Qed.

Lemma cosineSimilarity_zero_vector_witness :
  (forall x, x == 0 -> sqrtQ x == 0)
  /\ Forall (fun x => x == 0) [0; 0]
  /\ cosineOrNaN sqrtQ [0; 0] [3; 4; 5] = Some 0
  /\ cosineOrNaN sqrtQ [3; 4] [0; 0] = Some 0
  /\ cosineOrNaN sqrtQ [3; 4; 0] [0; 0] = None.
Proof.
  assert (Hz : Forall (fun x => x == 0) [0; 0])
    by (repeat constructor; reflexivity).
  split; [exact sqrtQ_zero|]. split; [exact Hz|].
  destruct (cosineSimilarity_zero_vector sqrtQ [0; 0] [3; 4; 5] sqrtQ_zero
              Hz) as [H1 _].
  destruct (cosineSimilarity_zero_vector sqrtQ [0; 0] [3; 4] sqrtQ_zero Hz)
    as [_ [H2 _]].
  destruct (cosineSimilarity_zero_vector sqrtQ [0; 0] [3; 4; 0] sqrtQ_zero
              Hz) as [_ [_ H3]].
  split; [exact H1|]. split; [apply H2; simpl; lia|].
  apply H3; [simpl; lia | vm_compute; discriminate].
Defined.

(** X3. A vector whose sum of squares is not zero, and on which the root
    is exact, has similarity 1 with itself. *)
Theorem cosineSimilarity_self :
  forall (sqrt : Q -> Q) (v : list Q),
    sqrt (squaredMagnitude v) * sqrt (squaredMagnitude v)
    == squaredMagnitude v ->
    ~ squaredMagnitude v == 0 ->
    cosineSimilarity sqrt v v == 1.
Proof.
  intros sqrt v Hexact Hnz. unfold cosineSimilarity.
  fold (squaredMagnitude v).
  assert (Hs : ~ sqrt (squaredMagnitude v) == 0).
  { intros H0. apply Hnz. rewrite <- Hexact, H0. ring. }
  rewrite (Qeq_bool_false _ _ Hs). simpl.
  rewrite Hexact. field. exact Hnz.
Qed.

Lemma cosineSimilarity_self_witness :
  sqrtQ (squaredMagnitude [3; 4]) * sqrtQ (squaredMagnitude [3; 4])
  == squaredMagnitude [3; 4]
  /\ ~ squaredMagnitude [3; 4] == 0
  /\ cosineSimilarity sqrtQ [3; 4] [3; 4] == 1.
Proof.
  assert (H1 : sqrtQ (squaredMagnitude [3; 4])
               * sqrtQ (squaredMagnitude [3; 4])
               == squaredMagnitude [3; 4]) by (vm_compute; reflexivity).
  assert (H2 : ~ squaredMagnitude [3; 4] == 0)
    by (vm_compute; discriminate).
  split; [exact H1|]. split; [exact H2|].
  exact (cosineSimilarity_self sqrtQ [3; 4] H1 H2).
Defined.

(** ** The Town Hall pattern *)

Ltac each_char c :=
  destruct c as [[] [] [] [] [] [] [] []]; vm_compute; try reflexivity;
  try discriminate.

Lemma isSpace_lowerChar (c : ascii) : isSpace (lowerChar c) = isSpace c.
Proof. each_char c. Qed.

Lemma isDigit_lowerChar (c : ascii) : isDigit (lowerChar c) = isDigit c.
Proof. each_char c. Qed.

Lemma lowerChar_idem (c : ascii) : lowerChar (lowerChar c) = lowerChar c.
Proof. each_char c. Qed.

Lemma lowerChar_digit (c : ascii) : isDigit c = true -> lowerChar c = c.
Proof. each_char c. Qed.

Lemma skipSpaces_lower (s : string) :
  skipSpaces (toLowerCase s) = toLowerCase (skipSpaces s).
Proof.
  induction s as [|c s IH]; simpl; [reflexivity|].
  rewrite isSpace_lowerChar. destruct (isSpace c); [exact IH | reflexivity].
Qed.

Lemma takeDigits_lower (s : string) :
  takeDigits (toLowerCase s) = takeDigits s.
Proof.
  induction s as [|c s IH]; simpl; [reflexivity|].
  rewrite isDigit_lowerChar. destruct (isDigit c) eqn:E; [|reflexivity].
  now rewrite IH, (lowerChar_digit c E).
Qed.

Lemma spacesThenDigits_lower (s : string) :
  spacesThenDigits (toLowerCase s) = spacesThenDigits s.
Proof.
  unfold spacesThenDigits. now rewrite skipSpaces_lower, takeDigits_lower.
Qed.

Lemma literalCI_lower (p s : string) :
  literalCI p (toLowerCase s)
  = match literalCI p s with
    | Some r => Some (toLowerCase r)
    | None => None
    end.
Proof.
  revert s. induction p as [|a p IH]; intros s; simpl; [reflexivity|].
  destruct s as [|c s]; simpl; [reflexivity|].
  rewrite lowerChar_idem. destruct (Ascii.eqb (lowerChar c) a); auto.
Qed.

Lemma patternAt_lower (s : string) :
  patternAt (toLowerCase s) = patternAt s.
Proof.
  unfold patternAt, thPatternAt, townHallPatternAt.
  rewrite !literalCI_lower.
  destruct (literalCI "th" s) as [r|].
  - rewrite spacesThenDigits_lower.
    destruct (spacesThenDigits r); [reflexivity|].
    destruct (literalCI "town" s) as [r1|]; [|reflexivity].
    rewrite skipSpaces_lower, literalCI_lower.
    destruct (literalCI "hall" (skipSpaces r1)); [|reflexivity].
    apply spacesThenDigits_lower.
  - destruct (literalCI "town" s) as [r1|]; [|reflexivity].
    rewrite skipSpaces_lower, literalCI_lower.
    destruct (literalCI "hall" (skipSpaces r1)); [|reflexivity].
    apply spacesThenDigits_lower.
Qed.

Lemma thMatch_lower (s : string) : thMatch (toLowerCase s) = thMatch s.
Proof.
  induction s as [|c s IH].
  - reflexivity.
  - change (toLowerCase (String c s))
      with (String (lowerChar c) (toLowerCase s)).
    cbn [thMatch].
    change (String (lowerChar c) (toLowerCase s))
      with (toLowerCase (String c s)).
    rewrite patternAt_lower, IH. reflexivity.
Qed.

Lemma takeDigits_allDigits (s : string) : allDigits (takeDigits s) = true.
Proof.
  induction s as [|c s IH]; simpl; [reflexivity|].
  destruct (isDigit c) eqn:E; simpl; [now rewrite E | reflexivity].
Qed.

Lemma spacesThenDigits_digits (s d : string) :
  spacesThenDigits s = Some d -> d <> EmptyString /\ allDigits d = true.
Proof.
  unfold spacesThenDigits. intros H.
  pose proof (takeDigits_allDigits (skipSpaces s)) as Hd.
  destruct (takeDigits (skipSpaces s)); [discriminate|].
  injection H as <-. split; [discriminate | exact Hd].
Qed.

Lemma patternAt_digits (s d : string) :
  patternAt s = Some d -> d <> EmptyString /\ allDigits d = true.
Proof.
  unfold patternAt, thPatternAt, townHallPatternAt. intros H.
  destruct (literalCI "th" s) as [r|].
  - destruct (spacesThenDigits r) as [d'|] eqn:E.
    + injection H as <-. now apply (spacesThenDigits_digits r).
    + destruct (literalCI "town" s) as [r1|]; [|discriminate].
      destruct (literalCI "hall" (skipSpaces r1)) as [r2|]; [|discriminate].
      now apply (spacesThenDigits_digits r2).
  - destruct (literalCI "town" s) as [r1|]; [|discriminate].
    destruct (literalCI "hall" (skipSpaces r1)) as [r2|]; [|discriminate].
    now apply (spacesThenDigits_digits r2).
Qed.

(** The capture of the Town Hall pattern is a non-empty run of digits. *)
Lemma thMatch_digits (s d : string) :
  thMatch s = Some d -> d <> EmptyString /\ allDigits d = true.
Proof.
  induction s as [|c s IH]; cbn [thMatch]; intros H.
  - destruct (patternAt EmptyString) eqn:E; [|discriminate].
    injection H as <-. now apply (patternAt_digits EmptyString).
  - destruct (patternAt (String c s)) eqn:E.
    + injection H as <-. now apply (patternAt_digits (String c s)).
    + now apply IH.
Qed.

Lemma parseDigits_nonneg (s : string) (acc : Z) :
  (0 <= acc)%Z -> (0 <= parseDigits s acc)%Z.
Proof.
  revert acc. induction s as [|c s IH]; intros acc H; cbn [parseDigits];
    [exact H|].
  apply IH. lia.
Qed.

(** X4. [analyzeQuery] and [extractKeywords] read the same Town Hall
    level: the level in [params.townHallLevel] is the number that the
    pattern captures in the query as typed, the one [extractKeywords]
    turns into tier tokens; it is never negative. *)
Theorem analyzeQuery_level_agrees_with_keywords :
  forall query : string,
    townHallLevel (params (analyzeQuery query))
    = match thMatch query with
      | Some d => Some (parseInt d)
      | None => None
      end
    /\ forall n, townHallLevel (params (analyzeQuery query)) = Some n ->
                 (0 <= n)%Z.
Proof.
  intros query.
  assert (H : townHallLevel (params (analyzeQuery query))
              = match thMatch query with
                | Some d => Some (parseInt d)
                | None => None
                end).
  { unfold analyzeQuery. rewrite thMatch_lower.
    destruct (isUpgradeQuery _); [reflexivity|].
    destruct (isAttackQuery _); [reflexivity|].
    destruct (isBaseQuery _); [reflexivity|].
    destruct (isResourceQuery _); reflexivity. }
  split; [exact H|].
  intros n Hn. rewrite H in Hn.
  destruct (thMatch query); [|discriminate].
  injection Hn as <-. apply parseDigits_nonneg. lia.
Qed.

(** ** Keyword extraction, continued *)

Lemma extractKeywords_steps (query : string) :
  extractKeywords query
  = match thMatch query with
    | Some thLevel =>
        if negb (arrayIncludes (baseKeywords query) thLevel)
        then baseKeywords query
             ++ [("th" ++ thLevel)%string; ("townhall" ++ thLevel)%string]
        else baseKeywords query
    | None => baseKeywords query
    end.
Proof. reflexivity. Qed.

Lemma addTerm_inv (c : string) (kws : list string) (t x : string) :
  In x (addTerm c kws t) -> In x kws \/ x = t.
Proof.
  unfold addTerm.
  destruct (includes c t && negb (arrayIncludes kws t)); [|now left].
  intros H. apply in_app_or in H. destruct H as [H | [<- | []]]; auto.
Qed.

Lemma baseKeywords_shape (query k : string) :
  In k (baseKeywords query) ->
  ((2 < String.length k)%nat /\ arrayIncludes stopwords k = false)
  \/ In k cocTerms.
Proof.
  unfold baseKeywords, cocTerms. simpl fold_left. intros H.
  apply addTerm_inv in H. destruct H as [H | ->]; [|right; simpl; tauto].
  apply addTerm_inv in H. destruct H as [H | ->]; [|right; simpl; tauto].
  apply addTerm_inv in H. destruct H as [H | ->]; [|right; simpl; tauto].
  left. apply filter_In in H. destruct H as [_ H].
  apply andb_true_iff in H. destruct H as [Hlen Hstop].
  apply Nat.ltb_lt in Hlen. apply negb_true_iff in Hstop. tauto.
Qed.

Lemma tier_tokens_not_stopwords (c : ascii) (d : string) :
  isDigit c = true ->
  arrayIncludes stopwords ("th" ++ String c d) = false
  /\ arrayIncludes stopwords ("townhall" ++ String c d) = false.
Proof.
  intros H.
  destruct c as [[] [] [] [] [] [] [] []]; vm_compute in H;
    try discriminate H; split; vm_compute; reflexivity.
Qed.

Lemma append_length (a b : string) :
  String.length (a ++ b) = (String.length a + String.length b)%nat.
Proof. induction a as [|c a IH]; simpl; [reflexivity | now rewrite IH]. Qed.

(** X5. No keyword that [extractKeywords] returns is a stop word, and
    none is shorter than three characters except the abbreviation
    "th". *)
Theorem extractKeywords_no_stopword_no_short_token :
  forall (query k : string),
    In k (extractKeywords query) ->
    arrayIncludes stopwords k = false
    /\ ((2 < String.length k)%nat \/ k = "th").
Proof.
  intros query k Hin. rewrite extractKeywords_steps in Hin.
  assert (Hbase : In k (baseKeywords query) ->
                  arrayIncludes stopwords k = false
                  /\ ((2 < String.length k)%nat \/ k = "th")).
  { intros H. apply baseKeywords_shape in H.
    destruct H as [[Hlen Hstop] | Hcoc]; [tauto|].
    unfold cocTerms in Hcoc. simpl in Hcoc.
    destruct Hcoc as [<- | [<- | [<- | []]]];
      (split; [vm_compute; reflexivity|]); simpl; auto. }
  destruct (thMatch query) as [d|] eqn:Eth; [|now apply Hbase].
  destruct (negb (arrayIncludes (baseKeywords query) d)); [|now apply Hbase].
  apply in_app_or in Hin. destruct Hin as [Hin | Hin]; [now apply Hbase|].
  destruct (thMatch_digits query d Eth) as [Hne Hdig].
  destruct d as [|c d]; [congruence|].
  simpl in Hdig. apply andb_true_iff in Hdig. destruct Hdig as [Hc _].
  destruct (tier_tokens_not_stopwords c d Hc) as [H1 H2].
  destruct Hin as [<- | [<- | []]]; (split; [assumption|]); left;
    rewrite append_length; simpl; lia.
Qed.

Lemma extractKeywords_no_stopword_witness :
  In "th" (extractKeywords "Is the other one better?")
  /\ arrayIncludes stopwords "th" = false
  /\ ((2 < String.length "th")%nat \/ "th" = "th").
Proof.
  assert (H : In "th" (extractKeywords "Is the other one better?"))
    by (vm_compute; tauto).
  split; [exact H|].
  exact (extractKeywords_no_stopword_no_short_token
           "Is the other one better?" "th" H).
Defined.

(** X6. A Town Hall level of one or two digits always yields its two tier
    tokens: when the pattern captures such a level [d], both "th" ++ d
    and "townhall" ++ d are among the keywords. *)
Theorem extractKeywords_tier_tokens :
  forall (query d : string),
    thMatch query = Some d ->
    (String.length d <= 2)%nat ->
    In ("th" ++ d)%string (extractKeywords query)
    /\ In ("townhall" ++ d)%string (extractKeywords query).
Proof.
  intros query d Eth Hlen. rewrite extractKeywords_steps, Eth.
  destruct (thMatch_digits query d Eth) as [Hne Hdig].
  assert (Hnot : arrayIncludes (baseKeywords query) d = false).
  { destruct (arrayIncludes (baseKeywords query) d) eqn:E; [|reflexivity].
    apply arrayIncludes_In, baseKeywords_shape in E.
    destruct E as [[Hlong _] | Hcoc]; [lia|].
    unfold cocTerms in Hcoc. simpl in Hcoc.
    destruct Hcoc as [<- | [<- | [<- | []]]]; discriminate Hdig. }
  rewrite Hnot. simpl negb. cbv iota.
  split; apply in_or_app; right; simpl; tauto.
Qed.

Lemma extractKeywords_tier_tokens_witness :
  thMatch "Best army for town hall 12?" = Some "12"
  /\ (String.length "12" <= 2)%nat
  /\ In "th12" (extractKeywords "Best army for town hall 12?")
  /\ In "townhall12" (extractKeywords "Best army for town hall 12?").
Proof.
  assert (H : thMatch "Best army for town hall 12?" = Some "12")
    by (vm_compute; reflexivity).
  split; [exact H|]. split; [simpl; lia|].
  apply (extractKeywords_tier_tokens "Best army for town hall 12?" "12" H).
  simpl. lia.
Defined.

(** A level of three digits typed as a word of its own is a keyword
    already, and then the tier tokens are left out. *)
Example extractKeywords_three_digit_level :
  extractKeywords "th 100" = ["100"; "th"].
Proof. vm_compute. reflexivity. Qed.

(** ** Sorted arrays *)

Section SortedBy.
Context {A : Type} (cmp : A -> A -> Q) (keyf : A -> Q) (P : A -> Prop).
Hypothesis Hcmp : forall a b, P a -> P b -> cmp a b == keyf b - keyf a.

Lemma insertSorted_sorted_by (x : A) (l : list A) :
  P x -> Forall P l ->
  StronglySorted (fun a b => keyf b <= keyf a) l ->
  StronglySorted (fun a b => keyf b <= keyf a) (insertSorted cmp x l).
Proof.
  intros Hx Hl Hs. induction l as [|y l IH]; simpl.
  - repeat constructor.
  - inversion Hl as [|? ? Hy Hl']; subst.
    inversion Hs as [|? ? Hs' Hall]; subst.
    pose proof (Hcmp x y Hx Hy) as Hxy.
    destruct (Qle_bool (cmp x y) 0) eqn:E.
    + apply Qle_bool_iff in E. rewrite Hxy in E.
      assert (Hyx : keyf y <= keyf x) by lra.
      constructor; [assumption|]. constructor; [assumption|].
      eapply Forall_impl; [|exact Hall].
      intros z Hz. simpl in Hz. lra.
    + assert (Hle : keyf x <= keyf y).
      { apply Qnot_lt_le. intros Hlt.
        assert (Hc : cmp x y <= 0) by (rewrite Hxy; lra).
        apply Qle_bool_iff in Hc. congruence. }
      constructor; [now apply IH|].
      apply Forall_forall. intros z Hz.
      apply (Permutation_in _ (insertSorted_perm cmp x l)) in Hz.
      destruct Hz as [<- | Hz]; [assumption|].
      rewrite Forall_forall in Hall. now apply Hall.
Qed.

Lemma stableSort_sorted_by (l : list A) :
  Forall P l ->
  StronglySorted (fun a b => keyf b <= keyf a) (stableSort cmp l).
Proof.
  induction l as [|x l IH]; intros H; simpl; [constructor|].
  inversion H as [|? ? Hx Hl]; subst.
  apply insertSorted_sorted_by; auto.
  apply Forall_forall. intros z Hz. apply stableSort_In in Hz.
  rewrite Forall_forall in Hl. now apply Hl.
Qed.
End SortedBy.

Lemma StronglySorted_firstn {A : Type} (R : A -> A -> Prop) (n : nat)
    (l : list A) :
  StronglySorted R l -> StronglySorted R (firstn n l).
Proof.
  revert l. induction n as [|n IH]; intros l H; [constructor|].
  destruct l as [|x l]; [constructor|]. simpl.
  inversion H as [|? ? Hs Hall]; subst.
  constructor; [now apply IH|].
  apply Forall_forall. intros z Hz. apply In_firstn in Hz.
  rewrite Forall_forall in Hall. now apply Hall.
Qed.

(** ** Semantic search *)



(** ** Keyword search *)

Lemma scoreKeyword_bounds (doc : Doc) (score : Z) (keyword : string) :
  (score <= scoreKeyword doc score keyword <= score + 6)%Z.
Proof.
  unfold scoreKeyword.
  destruct (includes _ _);
    destruct (meta_name (metadata doc)) as [name|];
    destruct (meta_type (metadata doc)) as [type|];
    repeat match goal with
           | |- context [if ?b then _ else _] => destruct b
           end; lia.
Qed.

Lemma fold_scoreKeyword_bounds (doc : Doc) (keywords : list string)
    (score : Z) :
  (score <= fold_left (scoreKeyword doc) keywords score
   <= score + 6 * Z.of_nat (List.length keywords))%Z.
Proof.
  revert score. induction keywords as [|k ks IH]; intros score.
  - simpl. lia.
  - cbn [fold_left List.length].
    pose proof (scoreKeyword_bounds doc score k).
    pose proof (IH (scoreKeyword doc score k)). lia.
Qed.

Lemma byKeywordScore_scoreOf (a b : Doc) :
  keywordScore a <> None -> keywordScore b <> None ->
  byKeywordScore a b == inject_Z (scoreOf b) - inject_Z (scoreOf a).
Proof.
  unfold byKeywordScore, scoreOf.
  destruct (keywordScore a), (keywordScore b); try congruence.
  intros _ _. unfold Z.sub. rewrite inject_Z_plus, inject_Z_opp. ring.
Qed.

(** X8. [findKeywordMatches] returns at most [topK] documents. Each is a
    copy of a given document with [keywordScore] set to its score, the
    score is positive and at most six times the number of keywords, and
    the documents come in descending order of score. *)
Theorem findKeywordMatches_ranked :
  forall (keywords : list string) (embeddings : list Doc) (topK : nat),
    let res := findKeywordMatches keywords embeddings topK in
    (List.length res <= topK)%nat
    /\ (forall d, In d res ->
          exists c, In c embeddings
                    /\ d = withKeywordScore c
                             (fold_left (scoreKeyword c) keywords 0%Z)
                    /\ (0 < scoreOf d
                        <= 6 * Z.of_nat (List.length keywords))%Z)
    /\ StronglySorted (fun a b => (scoreOf b <= scoreOf a)%Z) res.
Proof.
  intros keywords embeddings topK res. subst res. unfold findKeywordMatches.
  set (scored := map _ embeddings).
  set (matches := filter _ scored).
  assert (Hscored : forall d, In d matches -> keywordScore d <> None).
  { intros d Hd. apply filter_In in Hd. destruct Hd as [Hd _].
    apply in_map_iff in Hd. destruct Hd as [c [<- _]]. discriminate. }
  split; [|split].
  - rewrite length_firstn. lia.
  - intros d Hd. apply In_firstn, stableSort_In, filter_In in Hd.
    destruct Hd as [Hd Hpos]. apply in_map_iff in Hd.
    destruct Hd as [c [<- Hc]]. exists c. split; [exact Hc|].
    split; [reflexivity|]. cbn [keywordScore withKeywordScore] in Hpos.
    apply Z.ltb_lt in Hpos.
    unfold scoreOf. cbn [keywordScore withKeywordScore].
    pose proof (fold_scoreKeyword_bounds c keywords 0). lia.
  - apply StronglySorted_firstn.
    assert (Hs : StronglySorted
                   (fun a b => inject_Z (scoreOf b) <= inject_Z (scoreOf a))
                   (stableSort byKeywordScore matches)).
    { apply (stableSort_sorted_by byKeywordScore
               (fun d => inject_Z (scoreOf d))
               (fun d => keywordScore d <> None)).
      - intros a b. apply byKeywordScore_scoreOf.
      - apply Forall_forall. exact Hscored. }
    induction Hs as [|x l Hl IH Hall]; constructor; [exact IH|].
    eapply Forall_impl; [|exact Hall].
    intros z Hz. simpl in Hz. now rewrite Zle_Qle.
Qed.

(** X9. Without keywords no document matches, and a limit of zero
    returns nothing. *)
Theorem findKeywordMatches_nothing_to_match :
  forall (keywords : list string) (embeddings : list Doc) (topK : nat),
    findKeywordMatches [] embeddings topK = []
    /\ findKeywordMatches keywords embeddings 0 = [].
Proof.
  intros keywords embeddings topK. split; [|reflexivity].
  unfold findKeywordMatches. simpl fold_left.
  replace (filter _ _) with (@nil Doc); [now destruct topK|].
  induction embeddings as [|c l IH]; simpl; [reflexivity | exact IH].
Qed.

(** ** Maximum Marginal Relevance, continued *)

Section MMRMore.
Variable sqrt : Q -> Q.
Variables (lambda : Q) (topK : nat).


Lemma scanBest_unscored (selected remaining : list Doc) (i : nat)
    (bestScore : option Q) (bestIndex : option nat) :
  Forall (fun d => similarity d = None) remaining ->
  scanBest sqrt lambda selected remaining i bestScore bestIndex = bestIndex.
Proof.
  intros H. revert i.
  induction H as [|d rest Hd Hrest IH]; intros i; simpl; [reflexivity|].
  unfold mmrScore. rewrite Hd. simpl. apply IH.
Qed.
End MMRMore.



(** X11. Candidates without a similarity break the selection: with a
    target count of at least 2 and more candidates than that, none of
    them scored, every score is NaN, no index is recorded, and the call
    does not return a list of documents. *)
Theorem applyMMR_unscored_candidates :
  forall (sqrt : Q -> Q) (candidates : list Doc) (queryEmbedding : list Q)
         (K : nat) (lambda : Q),
    Forall (fun d => similarity d = None) candidates ->
    (2 <= K)%nat ->
    (K < List.length candidates)%nat ->
    applyMMR sqrt candidates queryEmbedding K lambda = None.
Proof.
  intros sqrt candidates q K lambda Hnone HK Hlen. unfold applyMMR.
  pose proof (stableSort_length bySimilarity candidates) as Hl.
  assert (Hsorted : Forall (fun d => similarity d = None)
                      (stableSort bySimilarity candidates)).
  { apply Forall_forall. intros x Hx. apply stableSort_In in Hx.
    rewrite Forall_forall in Hnone. now apply Hnone. }
  apply Nat.leb_gt in Hlen. rewrite Hlen. apply Nat.leb_gt in Hlen.
  destruct (stableSort bySimilarity candidates) as [|first remaining];
    [reflexivity|].
  inversion Hsorted as [|? ? _ Hrem]; subst.
  destruct remaining as [|d rest]; [simpl in Hl; lia|].
  cbn [List.length mmrLoop].
  replace (1 <? K)%nat with true by (symmetry; apply Nat.ltb_lt; lia).
  cbn [andb Nat.ltb Nat.leb].
  now rewrite (scanBest_unscored sqrt lambda [first] (d :: rest) 0 None None
                 Hrem).
Qed.

Lemma applyMMR_unscored_candidates_witness :
  Forall (fun d => similarity d = None) unscoredCandidates
  /\ (2 <= 2)%nat
  /\ (2 < List.length unscoredCandidates)%nat
  /\ applyMMR sqrtQ unscoredCandidates [1; 0] 2 (7 # 10) = None.
Proof.
  assert (H : Forall (fun d => similarity d = None) unscoredCandidates)
    by (repeat constructor).
  split; [exact H|]. split; [lia|]. split; [simpl; lia|].
  apply (applyMMR_unscored_candidates sqrtQ unscoredCandidates [1; 0] 2
           (7 # 10) H); simpl; lia.
Defined.

(** ** Town Hall filter, continued *)

(** X12. [filterByTownHallLevel] never narrows the corpus to fewer than
    five documents: its result is the corpus itself, or has at least
    five entries, each of which mentions the level or a neighbouring
    level. The entries are entries of the corpus, and distinct keys stay
    distinct. *)
Theorem filterByTownHallLevel_never_small :
  forall (A : Type) (doc : A -> Doc) (thLevel : option Z) (corpus : list A),
    let res := filterByTownHallLevel doc thLevel corpus in
    (res = corpus
     \/ ((5 <= List.length res)%nat
         /\ exists T, thLevel = Some T
              /\ forall x, In x res ->
                   mentionsLevel T (doc x) = true
                   \/ mentionsNearbyLevel T (doc x) = true))
    /\ (forall x, In x res -> In x corpus)
    /\ (NoDup (map (keyOf doc) corpus) -> NoDup (map (keyOf doc) res)).
Proof.
  intros A doc thLevel corpus res. subst res.
  split; [|split].
  - unfold filterByTownHallLevel.
    destruct thLevel as [T|]; [|now left].
    destruct (T =? 0)%Z; [now left|].
    destruct (5 <=? List.length (exactMatches doc T corpus))%nat eqn:E1.
    + right. apply Nat.leb_le in E1. split; [exact E1|].
      exists T. split; [reflexivity|].
      intros x Hx. unfold exactMatches in Hx. apply filter_In in Hx. tauto.
    + destruct (5 <=? List.length (combinedMatches doc T corpus))%nat eqn:E2;
        [|now left].
      right. apply Nat.leb_le in E2. split; [exact E2|].
      exists T. split; [reflexivity|].
      intros x Hx. apply combinedMatches_union in Hx.
      unfold exactMatches, nearbyMatches in Hx.
      destruct Hx as [Hx | Hx]; apply filter_In in Hx; tauto.
  - intros x. apply filterByTownHallLevel_In.
  - apply filterByTownHallLevel_NoDup.
Qed.

(** ** Retrieval, continued *)




Section RetrievalMore.
Variable sqrt : Q -> Q.
Variable generateQueryEmbedding : string -> list Q.





Lemma retrieveCandidates_corpus (query : string) (qa : QueryAnalysis)
    (corpus : list Doc) :
  exists touched,
    snd (retrieveCandidates sqrt generateQueryEmbedding query qa corpus)
    = assignSimilarity sqrt (generateQueryEmbedding query) touched corpus.
Proof.
  unfold retrieveCandidates.
  destruct (Intent_eqb (intent qa) upgrade_priority
            && truthy (itemType (params qa))).
  - destruct (itemType (params qa)) as [it|]; [|now exists []].
    destruct (boost _ _ _ _ _ _) as [f t]. now exists t.
  - destruct (Intent_eqb (intent qa) attack_strategy
              && truthy (focusTroop (params qa))); [|now exists []].
    destruct (focusTroop (params qa)) as [ft|]; [|now exists []].
    destruct (boost _ _ _ _ _ _) as [f t]. now exists t.
Qed.

Lemma assignSimilarity_frame_from (q : list Q) (touched : list nat)
    (l : list Doc) (n : nat) :
  Forall2 (untouchedOrScored sqrt q) l
    (map (fun r : nat * Doc =>
            if existsb (Nat.eqb (fst r)) touched
            then ensureSimilarity sqrt q (snd r) else snd r)
         (combine (seq n (List.length l)) l)).
Proof.
  revert n. induction l as [|c l IH]; intros n; simpl; constructor.
  - destruct (existsb (Nat.eqb n) touched); [|now left].
    unfold ensureSimilarity, untouchedOrScored.
    destruct (similarity c) eqn:E; [now left | now right].
  - apply IH.
Qed.
End RetrievalMore.



(** X14. All a call ever does to the corpus is to fill in a missing
    similarity: the corpus afterwards has the same records in the same
    order, each one either as it was or, if it had no similarity, with
    [similarity] set to its cosine to the query embedding. A corpus whose
    records all carry a similarity is left as it was. *)
Theorem retrieveContext_only_fills_missing_similarity :
  forall (sqrt : Q -> Q) (generateQueryEmbedding : string -> list Q)
         (query : string) (qa : QueryAnalysis) (corpus : list Doc),
    let corpus' :=
      snd (retrieveContext sqrt generateQueryEmbedding query qa corpus) in
    Forall2 (untouchedOrScored sqrt (generateQueryEmbedding query))
      corpus corpus'
    /\ (Forall hasSimilarity corpus -> corpus' = corpus).
Proof.
  intros sqrt embed query qa corpus corpus'.
  assert (H : Forall2 (untouchedOrScored sqrt (embed query)) corpus corpus').
  { subst corpus'. unfold retrieveContext.
    destruct (retrieveCandidates_corpus sqrt embed query qa corpus)
      as [touched Ht].
    destruct (retrieveCandidates sqrt embed query qa corpus)
      as [filtered c']. simpl in *. subst c'.
    apply assignSimilarity_frame_from. }
  split; [exact H|].
  intros Hall. clearbody corpus'.
  induction H as [|c c' l l' Hc Hl IH]; [reflexivity|].
  inversion Hall as [|? ? Hcs Hls]; subst.
  f_equal; [|now apply IH].
  destruct Hc as [Hc | [Hnone _]]; [exact Hc|].
  unfold hasSimilarity in Hcs. congruence.
Qed.

Lemma retrieveContext_frame_without_boost_witness :
  itemType (params (analyzeQuery generalQuery)) = None
  /\ focusTroop (params (analyzeQuery generalQuery)) = None
  /\ snd (retrieveContext sqrtQ embedUnit generalQuery
            (analyzeQuery generalQuery) smallCorpus) = smallCorpus.
Proof.
  assert (H1 : itemType (params (analyzeQuery generalQuery)) = None)
    by (vm_compute; reflexivity).
  assert (H2 : focusTroop (params (analyzeQuery generalQuery)) = None)
    by (vm_compute; reflexivity).
  split; [exact H1|]. split; [exact H2|].
  exact (retrieveContext_frame_without_boost sqrtQ embedUnit generalQuery
           (analyzeQuery generalQuery) smallCorpus H1 H2).
Defined.

(** ** The prompt, continued *)

Lemma append_assoc_string (a b c : string) :
  ((a ++ b) ++ c = a ++ b ++ c)%string.
Proof. induction a as [|x a IH]; simpl; [reflexivity | now rewrite IH]. Qed.

Lemma excerptsFrom_nth (docs : list Doc) (n i : nat) (d : Doc) :
  nth_error docs i = Some d ->
  In (excerpt (n + i) d) (excerptsFrom n docs).
Proof.
  revert n i. induction docs as [|x docs IH]; intros n [|i] H; simpl in H;
    try discriminate.
  - injection H as ->. rewrite Nat.add_0_r. now left.
  - right. replace (n + S i)%nat with (S n + i)%nat by lia. now apply IH.
Qed.

(** X15. The prompt quotes the query as typed and holds one excerpt per
    context document, in order: the document at position [i] appears as
    "[Document i+1] ", its name and a colon when it has a name, and its
    content without surrounding white space. *)
Theorem generateAdvisorPrompt_holds_query_and_excerpts :
  forall (query : string) (qa : QueryAnalysis) (contextDocs : list Doc),
    includes (generateAdvisorPrompt query qa contextDocs)
      ("USER QUERY: " ++ dquote ++ query ++ dquote) = true
    /\ forall i d,
         nth_error contextDocs i = Some d ->
         includes (generateAdvisorPrompt query qa contextDocs) (excerpt i d)
         = true
         /\ String.prefix
              ("[Document " ++ numberToString (Z.of_nat i + 1) ++ "] ")
              (excerpt i d) = true.
Proof.
  intros query qa contextDocs. unfold generateAdvisorPrompt. split.
  - apply includes_app_l. unfold promptBeforeContext, lines.
    apply includes_join. simpl. tauto.
  - intros i d H. split.
    + apply includes_app_r, includes_app_l. unfold contextInfo.
      apply includes_join. now apply (excerptsFrom_nth contextDocs 0 i d).
    + unfold excerpt.
      match goal with
      | |- String.prefix ?p (_ ++ _ ++ _ ++ ?rest)%string = true =>
          replace (_ ++ _ ++ _ ++ rest)%string with (p ++ rest)%string
            by (now rewrite !append_assoc_string)
      end.
      apply prefix_app.
Qed.

(** ** Sources and relevance *)

(** X16. The relevance of a source is [null] when the document has no
    similarity or the similarity is zero. Otherwise it is the integer
    nearest (a half goes up) to the product of the similarity and 100 as
    double-precision arithmetic gives it; since that product is monotone
    and exact at 0 and at 1, the relevance lies between 0 and 100 when
    the similarity lies between 0 and 1. *)
Theorem relevanceOf_rounds_percentage :
  forall (multiply : Q -> Q -> Q) (doc : Doc),
    (forall x y, x <= y -> multiply x 100 <= multiply y 100) ->
    multiply 0 100 == 0 ->
    multiply 1 100 == 100 ->
    (similarity doc = None -> relevanceOf multiply doc = None)
    /\ forall s,
         similarity doc = Some s ->
         (s == 0 -> relevanceOf multiply doc = None)
         /\ (~ s == 0 ->
             exists r,
               relevanceOf multiply doc = Some r
               /\ inject_Z r <= multiply s 100 + (1 # 2)
               /\ multiply s 100 + (1 # 2) < inject_Z r + 1
               /\ (0 <= s -> s <= 1 -> (0 <= r <= 100)%Z)).
Proof.
  intros multiply doc Hmono H0 H1. unfold relevanceOf. split.
  { now intros ->. }
  intros s ->. split.
  - intros Hz. apply Qeq_bool_iff in Hz. now rewrite Hz.
  - intros Hnz. rewrite (Qeq_bool_false _ _ Hnz).
    exists (round (multiply s 100)). split; [reflexivity|]. unfold round.
    split; [apply Qfloor_le|]. split.
    + pose proof (Qlt_floor (multiply s 100 + (1 # 2))) as H.
      rewrite inject_Z_plus in H. exact H.
    + intros Hlo Hhi.
      pose proof (Hmono 0 s Hlo) as Hge. rewrite H0 in Hge.
      pose proof (Hmono s 1 Hhi) as Hle. rewrite H1 in Hle.
      split.
      * change 0%Z with (Qfloor (1 # 2)). apply Qfloor_resp_le.
        clear - Hge. lra.
      * apply Z.le_trans with (Qfloor (201 # 2));
          [|vm_compute; discriminate].
        apply Qfloor_resp_le. clear - Hle. lra.
Qed.

(** The double nearest to 0.015 is [1080863910568919 / 2^56]. Its exact
    product with 100 lies just below 1.5, the double nearest to that
    product is 1.5, and the relevance is 2, not the 1 that rounding the
    exact product gives. *)
Example relevanceOf_half_way :
  let s := 1080863910568919 # 72057594037927936 in
  s * 100 < 3 # 2
  /\ round (s * 100) = 1%Z
  /\ forall multiply : Q -> Q -> Q,
       multiply s 100 == 3 # 2 ->
       relevanceOf multiply (candidate "giant" [1; 0] s) = Some 2%Z.
Proof.
  intros s. split; [reflexivity|]. split; [vm_compute; reflexivity|].
  intros multiply H. unfold relevanceOf. cbn [candidate similarity withSimilarity].
  replace (Qeq_bool s 0) with false by reflexivity.
  f_equal. unfold round.
  assert (Heq : multiply s 100 + (1 # 2) == 2) by (rewrite H; reflexivity).
  now rewrite Heq.
Qed.

Lemma relevanceOf_rounds_percentage_witness :
  (forall x y, x <= y -> Qmult x 100 <= Qmult y 100)
  /\ Qmult 0 100 == 0
  /\ Qmult 1 100 == 100
  /\ similarity (candidate "giant" [1; 0] (8 # 10)) = Some (8 # 10)
  /\ (8 # 10 == 0
      -> relevanceOf Qmult (candidate "giant" [1; 0] (8 # 10)) = None)
  /\ (~ 8 # 10 == 0 ->
      exists r,
        relevanceOf Qmult (candidate "giant" [1; 0] (8 # 10)) = Some r
        /\ inject_Z r <= (8 # 10) * 100 + (1 # 2)
        /\ (8 # 10) * 100 + (1 # 2) < inject_Z r + 1
        /\ (0 <= 8 # 10 -> 8 # 10 <= 1 -> (0 <= r <= 100)%Z)).
Proof.
  assert (Hmono : forall x y, x <= y -> Qmult x 100 <= Qmult y 100)
    by (intros x y Hxy; lra).
  assert (H0 : Qmult 0 100 == 0) by reflexivity.
  assert (H1 : Qmult 1 100 == 100) by reflexivity.
  split; [exact Hmono|]. split; [exact H0|]. split; [exact H1|].
  split; [reflexivity|].
  exact (proj2 (relevanceOf_rounds_percentage Qmult
                  (candidate "giant" [1; 0] (8 # 10)) Hmono H0 H1)
           (8 # 10) eq_refl).
Defined.

(** ** Answering a query *)





(** ** Response formatting *)

Lemma includes_tail (c : ascii) (s t : string) :
  includes (String c s) t = false ->
  String.prefix t (String c s) = false /\ includes s t = false.
Proof. cbn [includes]. intros H. now apply orb_false_iff in H. Qed.

Lemma firstPrefix_absent (alternatives : list string) (s : string) :
  (forall a, In a alternatives -> String.prefix a s = false) ->
  firstPrefix alternatives s = None.
Proof.
  induction alternatives as [|a rest IH]; intros H; simpl; [reflexivity|].
  rewrite (H a (or_introl eq_refl)). apply IH.
  intros b Hb. apply H. now right.
Qed.

Lemma removeArtifacts_absent (s : string) :
  (forall a, In a artifacts -> includes s a = false) ->
  removeArtifacts s = s.
Proof.
  unfold removeArtifacts. induction s as [|c s IH]; intros H;
    [reflexivity|].
  cbn [removeArtifactsLoop].
  rewrite firstPrefix_absent.
  - f_equal. apply IH. intros a Ha.
    now apply (includes_tail c s a (H a Ha)).
  - intros a Ha. now apply (includes_tail c s a (H a Ha)).
Qed.

Lemma rewriteCitations_absent (s : string) :
  includes s "[Document " = false -> rewriteCitations s = s.
Proof.
  unfold rewriteCitations. induction s as [|c s IH]; intros H;
    [reflexivity|].
  apply includes_tail in H. destruct H as [Hp Hs].
  cbn [rewriteCitationsLoop]. unfold citationAt. rewrite Hp.
  f_equal. now apply IH.
Qed.

(** X18. [formatResponse] returns a response as it is when the response
    holds none of the three prompt headings and no document citation,
    and no restructuring applies: the intent is not upgrade priority, or
    the text already says "Priority" or "Upgrade", or it has fewer than
    three non-blank paragraphs. *)
Theorem formatResponse_leaves_clean_response :
  forall (response : string) (qa : QueryAnalysis),
    (forall a, In a artifacts -> includes response a = false) ->
    includes response "[Document " = false ->
    (intent qa <> upgrade_priority
     \/ includes response "Priority" = true
     \/ includes response "Upgrade" = true
     \/ (List.length (paragraphsOf response) < 3)%nat) ->
    formatResponse response qa = response.
Proof.
  intros response qa Hart Hcit Hcase. unfold formatResponse.
  rewrite (removeArtifacts_absent response Hart).
  rewrite (rewriteCitations_absent response Hcit).
  fold (paragraphsOf response).
  destruct Hcase as [Hi | [Hp | [Hu | Hn]]].
  - destruct (intent qa); try reflexivity. congruence.
  - rewrite Hp. simpl. now rewrite andb_false_r.
  - rewrite Hu. simpl. now rewrite andb_false_r.
  - apply Nat.leb_gt in Hn. rewrite Hn.
    now destruct (_ && _ && _).
Qed.

Lemma formatResponse_leaves_clean_response_witness :
  (forall a, In a artifacts ->
             includes "Train more archers before you attack." a = false)
  /\ includes "Train more archers before you attack." "[Document " = false
  /\ (intent (analyzeQuery twoUnitsQuery) <> upgrade_priority
      \/ includes "Train more archers before you attack." "Priority" = true
      \/ includes "Train more archers before you attack." "Upgrade" = true
      \/ (List.length (paragraphsOf "Train more archers before you attack.")
          < 3)%nat)
  /\ formatResponse "Train more archers before you attack."
       (analyzeQuery twoUnitsQuery)
     = "Train more archers before you attack.".
Proof.
  assert (H1 : forall a, In a artifacts ->
                 includes "Train more archers before you attack." a = false).
  { intros a [<- | [<- | [<- | []]]]; vm_compute; reflexivity. }
  assert (H2 : includes "Train more archers before you attack." "[Document "
               = false) by (vm_compute; reflexivity).
  assert (H3 : intent (analyzeQuery twoUnitsQuery) <> upgrade_priority
               \/ includes "Train more archers before you attack." "Priority"
                  = true
               \/ includes "Train more archers before you attack." "Upgrade"
                  = true
               \/ (List.length
                     (paragraphsOf "Train more archers before you attack.")
                   < 3)%nat).
  { left. vm_compute. discriminate. }
  split; [exact H1|]. split; [exact H2|]. split; [exact H3|].
  exact (formatResponse_leaves_clean_response
           "Train more archers before you attack."
           (analyzeQuery twoUnitsQuery) H1 H2 H3).
Defined.

(** A citation is rewritten and a heading of the prompt is dropped. *)
Example formatResponse_rewrites :
  formatResponse "IMPORTANT GUIDELINES:Max the camps [Document 12]."
    (analyzeQuery twoUnitsQuery)
  = "Max the camps [Source: Document 12].".
Proof. vm_compute. reflexivity. Qed.

(** ** Routes of the advisor *)

(** X19. [POST /advisor] answers 200 only for a query of at least five
    characters on which [processQuery] returned, and then with that
    answer. A query shorter than five characters is refused with 400
    whatever [processQuery] would do with it, while
    [POST /advisor/analyze] answers every non-empty query with 200, its
    analysis and its keywords. *)
Theorem advisor_routes_validation :
  forall (processQuery processQuery' : string -> Outcome)
         (query : option string),
    (status (advisorRoute processQuery query) = 200%nat ->
     exists q a,
       query = Some q /\ (5 <= String.length q)%nat
       /\ processQuery q = Returned a
       /\ body (advisorRoute processQuery query) = AnswerBody a)
    /\ (forall q, query = Some q -> (String.length q < 5)%nat ->
          status (advisorRoute processQuery query) = 400%nat
          /\ advisorRoute processQuery query
             = advisorRoute processQuery' query)
    /\ (forall q, query = Some q -> q <> EmptyString ->
          analyzeRoute query
          = mkReply 200
              (AnalysisBody q (analyzeQuery q) (extractKeywords q))).
Proof.
  intros pq pq' query. split; [|split].
  - unfold advisorRoute. destruct query as [q|]; [|discriminate].
    destruct (String.eqb q EmptyString); [discriminate|].
    destruct (String.length q <? 5)%nat eqn:E; [discriminate|].
    apply Nat.ltb_ge in E.
    destruct (pq q) as [a|m] eqn:Ep; [|discriminate].
    intros _. exists q, a. repeat split; assumption.
  - intros q -> Hlen. unfold advisorRoute.
    destruct (String.eqb q EmptyString); [split; reflexivity|].
    apply Nat.ltb_lt in Hlen. rewrite Hlen. split; reflexivity.
  - intros q -> Hne. unfold analyzeRoute.
    apply String.eqb_neq in Hne. now rewrite Hne.
Qed.

(** ** Retrieval of the battle simulator *)

Lemma dedup_invariant (docs : list Simulator.Hit) (seen : list string)
    (unique : list Simulator.Hit) :
  seen = map Simulator.hitKey unique ->
  NoDup seen ->
  let st := fold_left Simulator.dedupStep docs (seen, unique) in
  fst st = map Simulator.hitKey (snd st)
  /\ NoDup (fst st)
  /\ forall h, In h (snd st) -> In h unique \/ In h docs.
Proof.
  revert seen unique. induction docs as [|d docs IH];
    intros seen unique Hseen Hnd; simpl.
  - repeat split; auto.
  - destruct (arrayIncludes seen (Simulator.hitKey d)) eqn:E.
    + destruct (IH seen unique Hseen Hnd) as [H1 [H2 H3]].
      repeat split; [exact H1 | exact H2 |].
      intros h Hh. destruct (H3 h Hh); tauto.
    + destruct (IH (seen ++ [Simulator.hitKey d]) (unique ++ [d]))
        as [H1 [H2 H3]].
      * rewrite map_app, Hseen. reflexivity.
      * apply NoDup_app; [assumption | repeat constructor; intros [] |].
        intros k Hk [<- | []].
        apply arrayIncludes_In in Hk. congruence.
      * repeat split; [exact H1 | exact H2 |].
        intros h Hh. destruct (H3 h Hh) as [Hu | Hd]; [|tauto].
        apply in_app_or in Hu. destruct Hu as [Hu | [<- | []]]; tauto.
Qed.

Lemma deduplicate_facts (docs : list Simulator.Hit) (n : nat) :
  NoDup (map Simulator.hitKey (firstn n (Simulator.deduplicate docs)))
  /\ forall h, In h (firstn n (Simulator.deduplicate docs)) -> In h docs.
Proof.
  unfold Simulator.deduplicate.
  destruct (dedup_invariant docs [] [] eq_refl (NoDup_nil _))
    as [H1 [H2 H3]].
  split.
  - rewrite H1 in H2.
    rewrite <- (firstn_skipn n (snd (fold_left Simulator.dedupStep docs
                                       ([], [])))), map_app in H2.
    now apply NoDup_app_remove_r in H2.
  - intros h Hh. apply In_firstn in Hh.
    destruct (H3 h Hh) as [[] | Hd]. exact Hd.
Qed.

Section SimulatorFacts.
Variable sqrt : Q -> Q.
Variable generateQueryEmbedding : string -> list Q.

(** A retrieved object carries the metadata of a corpus record. *)
Definition fromCorpus (embeddings : list Doc) (h : Simulator.Hit) : Prop :=
  exists c, In c embeddings /\ Simulator.hitMetadata h = metadata c.

Lemma simulator_findSimilarDocuments_origin (q : list Q)
    (embeddings : list Doc) (topK : nat) (h : Simulator.Hit) :
  In h (Simulator.findSimilarDocuments sqrt q embeddings topK) ->
  fromCorpus embeddings h.
Proof.
  unfold Simulator.findSimilarDocuments. intros H.
  apply In_firstn, stableSort_In, in_map_iff in H.
  destruct H as [[i c] [<- Hr]]. apply in_combine_r in Hr.
  exists c. split; [exact Hr | reflexivity].
Qed.

Lemma findItemInfo_origin (itemName : string) (embeddings : list Doc)
    (itemType : string) (h : Simulator.Hit) :
  In h (Simulator.findItemInfo sqrt generateQueryEmbedding itemName
          embeddings itemType) ->
  fromCorpus embeddings h.
Proof.
  unfold Simulator.findItemInfo. destruct (0 <? _)%nat.
  - intros H. apply In_firstn, stableSort_In, in_map_iff in H.
    destruct H as [c [<- Hc]]. apply filter_In in Hc.
    exists c. split; [tauto | reflexivity].
  - apply simulator_findSimilarDocuments_origin.
Qed.

Lemma lookupEntries_origin (embeddings : list Doc) (itemType : string)
    (entries : option (list (string * Z))) (h : Simulator.Hit) :
  In h (Simulator.lookupEntries sqrt generateQueryEmbedding embeddings
          itemType entries) ->
  fromCorpus embeddings h.
Proof.
  unfold Simulator.lookupEntries. destruct entries as [items|]; [|intros []].
  intros H. apply in_flat_map in H. destruct H as [e [_ He]].
  destruct (0 <? snd e)%Z; [|destruct He].
  now apply findItemInfo_origin in He.
Qed.

Lemma lookupEntries_noUnits (embeddings : list Doc) (itemType : string)
    (entries : option (list (string * Z))) :
  noUnits entries = true ->
  Simulator.lookupEntries sqrt generateQueryEmbedding embeddings itemType
    entries = [].
Proof.
  unfold noUnits, Simulator.lookupEntries.
  destruct entries as [items|]; [|reflexivity].
  induction items as [|e items IH]; simpl; [reflexivity|].
  intros H. apply andb_true_iff in H. destruct H as [He Hrest].
  apply Z.leb_le in He.
  replace (0 <? snd e)%Z with false by (symmetry; apply Z.ltb_ge; lia).
  simpl. now apply IH.
Qed.
End SimulatorFacts.

(** X20. The simulator's [findItemInfo] returns at most two objects.
    When some record of the corpus is named like the item, the case of
    letters aside, every object returned is a copy of such a record with
    its similarity to the item query; only when no record is named like
    the item does it fall back to the two most similar records of the
    whole corpus. *)
Theorem findItemInfo_exact_name_first :
  forall (sqrt : Q -> Q) (generateQueryEmbedding : string -> list Q)
         (itemName : string) (embeddings : list Doc) (itemType : string),
    let q :=
      generateQueryEmbedding (Simulator.itemQuery itemName itemType) in
    let res :=
      Simulator.findItemInfo sqrt generateQueryEmbedding itemName embeddings
        itemType in
    (List.length res <= 2)%nat
    /\ ((exists d, In d embeddings /\ Simulator.namedLike itemName d = true)
        -> forall h, In h res ->
             exists c,
               In c embeddings
               /\ Simulator.namedLike itemName c = true
               /\ h = Simulator.Scored
                        (withSimilarity c
                           (cosineSimilarity sqrt q (embedding c))))
    /\ ((forall d, In d embeddings -> Simulator.namedLike itemName d = false)
        -> res = Simulator.findSimilarDocuments sqrt q embeddings 2).
Proof.
  intros sqrt embed itemName embeddings itemType q res. subst q res.
  unfold Simulator.findItemInfo.
  split; [|split].
  - destruct (0 <? _)%nat; [rewrite length_firstn; lia|].
    unfold Simulator.findSimilarDocuments. rewrite length_firstn. lia.
  - intros [d [Hd Hn]].
    assert (Hin : In d (filter (Simulator.namedLike itemName) embeddings))
      by (apply filter_In; tauto).
    destruct (filter (Simulator.namedLike itemName) embeddings)
      as [|x l] eqn:E; [destruct Hin|].
    cbn [List.length Nat.ltb Nat.leb]. rewrite <- E.
    intros h Hh. apply In_firstn, stableSort_In, in_map_iff in Hh.
    destruct Hh as [c [<- Hc]]. apply filter_In in Hc.
    exists c. tauto.
  - intros Hnone.
    replace (filter (Simulator.namedLike itemName) embeddings)
      with (@nil Doc); [reflexivity|].
    symmetry. clear -Hnone.
    induction embeddings as [|c l IH]; simpl; [reflexivity|].
    rewrite (Hnone c (or_introl eq_refl)). apply IH.
    intros d Hd. apply Hnone. now right.
Qed.

(** X21. The simulator's [retrieveArmyInfo] returns at most five
    objects, no two with the same "id-category" key, each carrying the
    metadata of a corpus record. An army without a siege machine whose
    troops, spells and heroes all have a quantity of zero or less
    retrieves nothing. *)
Theorem retrieveArmyInfo_at_most_five_distinct :
  forall (sqrt : Q -> Q) (generateQueryEmbedding : string -> list Q)
         (army : Simulator.ArmyComposition) (embeddings : list Doc),
    let res :=
      Simulator.retrieveArmyInfo sqrt generateQueryEmbedding army
        embeddings in
    (List.length res <= 5)%nat
    /\ NoDup (map Simulator.hitKey res)
    /\ (forall h, In h res ->
          exists c, In c embeddings /\ Simulator.hitMetadata h = metadata c)
    /\ (noUnits (Simulator.army_troops army) = true ->
        noUnits (Simulator.army_spells army) = true ->
        noUnits (Simulator.army_heroes army) = true ->
        truthy (Simulator.army_siegeMachine army) = false ->
        res = []).
Proof.
  intros sqrt embed army embeddings res. subst res.
  unfold Simulator.retrieveArmyInfo.
  split; [rewrite length_firstn; lia|].
  match goal with
  | |- context [firstn 5 (Simulator.deduplicate ?docs)] =>
      destruct (deduplicate_facts docs 5) as [Hnd Hin]
  end.
  split; [exact Hnd|]. split.
  - intros h Hh. apply Hin in Hh.
    repeat (apply in_app_or in Hh; destruct Hh as [Hh | Hh]);
      try (now apply lookupEntries_origin in Hh).
    destruct (truthy (Simulator.army_siegeMachine army)); [|destruct Hh].
    destruct (Simulator.army_siegeMachine army); [|destruct Hh].
    now apply findItemInfo_origin in Hh.
  - intros Ht Hs Hh Hsiege.
    rewrite !lookupEntries_noUnits by assumption. rewrite Hsiege.
    reflexivity.
Qed.

(** X22. The simulator's [retrieveBaseInfo] returns at most three
    objects, no two with the same "id-category" key, each carrying the
    metadata of a corpus record. *)
Theorem retrieveBaseInfo_at_most_three_distinct :
  forall (sqrt : Q -> Q) (generateQueryEmbedding : string -> list Q)
         (base : Simulator.BaseLayout) (embeddings : list Doc),
    let res :=
      Simulator.retrieveBaseInfo sqrt generateQueryEmbedding base
        embeddings in
    (List.length res <= 3)%nat
    /\ NoDup (map Simulator.hitKey res)
    /\ (forall h, In h res ->
          exists c, In c embeddings /\ Simulator.hitMetadata h = metadata c).
Proof.
  intros sqrt embed base embeddings res. subst res.
  unfold Simulator.retrieveBaseInfo.
  split; [rewrite length_firstn; lia|].
  match goal with
  | |- context [firstn 3 (Simulator.deduplicate ?docs)] =>
      destruct (deduplicate_facts docs 3) as [Hnd Hin]
  end.
  split; [exact Hnd|].
  intros h Hh. apply Hin in Hh.
  apply in_app_or in Hh. destruct Hh as [Hh | Hh];
    [now apply lookupEntries_origin in Hh|].
  destruct (Simulator.base_townHallLevel base) as [level|]; [|destruct Hh].
  destruct (level =? 0)%Z; [destruct Hh|].
  now apply simulator_findSimilarDocuments_origin in Hh.
Qed.

(** The key is one string: records whose identifier and category differ
    can share it, and then only the first is kept. *)
Example deduplicate_joined_keys :
  Simulator.deduplicate
    [ Simulator.Scored (corpusDoc "air-defense" "stats" "defense" "a" [1]);
      Simulator.Scored (corpusDoc "air" "defense-stats" "defense" "b" [1]) ]
  = [ Simulator.Scored (corpusDoc "air-defense" "stats" "defense" "a" [1]) ].
Proof. vm_compute. reflexivity. Qed.

Example retrieveArmyInfo_sample :
  map Simulator.hitKey
    (Simulator.retrieveArmyInfo sqrtQ embedUnit sampleArmy smallCorpus)
  = ["barbarian-basic_info"].
Proof. vm_compute. reflexivity. Qed.

(** ** The hybrid merge *)

Lemma ensureSimilarity_scored (sqrt : Q -> Q) (q : list Q) (d : Doc) :
  hasSimilarity d -> ensureSimilarity sqrt q d = d.
Proof.
  unfold hasSimilarity, ensureSimilarity.
  destruct (similarity d); [reflexivity | congruence].
Qed.

Lemma present_ensureSimilarity (sqrt : Q -> Q) (q : list Q)
    (acc : list Doc) (d : Doc) :
  present (fun x : Doc => x) acc (ensureSimilarity sqrt q d)
  = present (fun x : Doc => x) acc d.
Proof.
  unfold present, sameKey, ensureSimilarity.
  now destruct (similarity d).
Qed.

(** X23. In the hybrid merge the semantic results come first, as
    [findSimilarDocuments] ranked them; a keyword match follows only when
    no semantic result has its key, and then with a similarity as well as
    its keyword score. *)
Theorem combinedResults_semantic_first :
  forall (sqrt : Q -> Q) (generateQueryEmbedding : string -> list Q)
         (query : string) (docs : list Doc),
    let semantic :=
      findSimilarDocuments sqrt (generateQueryEmbedding query) docs 7 in
    exists extras,
      combinedResults sqrt generateQueryEmbedding query docs
      = semantic ++ extras
      /\ forall e, In e extras ->
           hasSimilarity e
           /\ keywordScore e <> None
           /\ present (fun d : Doc => d) semantic e = false.
Proof.
  intros sqrt embed query docs semantic. unfold combinedResults.
  fold semantic.
  destruct (fold_pushIfNew_extras (fun d : Doc => d)
              (findKeywordMatches (extractKeywords query) docs 7) semantic)
    as [ex [Heq Hex]].
  exists (map (ensureSimilarity sqrt (embed query)) ex).
  rewrite Heq, map_app. split.
  - f_equal. rewrite <- (map_id semantic) at 2.
    apply map_ext_in. intros d Hd. apply ensureSimilarity_scored.
    subst semantic. unfold findSimilarDocuments in Hd.
    apply In_firstn, stableSort_In, in_map_iff in Hd.
    destruct Hd as [c [<- _]]. discriminate.
  - intros e He. apply in_map_iff in He. destruct He as [x [<- Hx]].
    destruct (Hex x Hx) as [Hkw Hnew].
    split; [apply ensureSimilarity_has|]. split.
    + unfold findKeywordMatches in Hkw.
      apply In_firstn, stableSort_In, filter_In in Hkw.
      destruct Hkw as [Hkw _]. apply in_map_iff in Hkw.
      destruct Hkw as [c [<- _]]. unfold ensureSimilarity.
      destruct (similarity _); discriminate.
    + now rewrite present_ensureSimilarity.
Qed.
